(** * passport-cas-ts: the CAS strategy of [src/index.ts]

    A shallow embedding of the [CasStrategy] class: the request dispatch of
    [authenticate], the logout handler, the service URL resolution of
    [getReqService], the reading of the validation response in [validate]
    and the completion callback [onceVerified].

    The strategy is effectful: it logs, redirects, declares success or
    failure through passport, calls the host's verification hook, calls
    [req.logout] and issues one HTTP GET.  Each method is a computation in a
    small monad that records the calls made, in order, and ends either by
    returning or by throwing (for the [async] method [authenticate]: the
    promise resolves or rejects).

    What the platform provides ([URL], [axios.get], [xml2js.parseString]) is
    a parameter of the development.  JavaScript strings are modelled by
    [string]. *)

From Stdlib Require Import ZArith Ascii String.
From stdpp Require Import base strings gmap list pretty.

Set Warnings "-register-all".

(** ** JavaScript values *)

(** The values that cross the strategy's boundary untyped ([err: any],
    [profile: object | null], [info], [challenge], the [code] attribute).
    [VNumber n] is the number with integer value [n] (printed in decimal, as
    JavaScript prints integers below 10^21); [VObject] lists the own
    enumerable properties in enumeration order; [VError name message] is an
    [Error] instance, whose own properties are not enumerable. *)
Inductive value : Type :=
| VUndefined
| VNull
| VBool (b : bool)
| VNumber (n : Z)
| VNaN
| VBigInt (n : Z)
| VString (s : string)
| VArray (elems : list value)
| VObject (props : list (string * value))
| VError (name message : string).

(** [new Error(message)] *)
Definition new_Error (message : string) : value := VError "Error" message.

(** ToBoolean: the falsy values are [undefined], [null], [false], [0],
    [NaN], [0n] and the empty string. *)
Definition truthy (v : value) : bool :=
  match v with
  | VUndefined | VNull | VNaN => false
  | VBool b => b
  | VNumber n | VBigInt n => negb (n =? 0)%Z
  | VString s => negb (String.eqb s EmptyString)
  | VArray _ | VObject _ | VError _ _ => true
  end.

(** Array.prototype.join with separator [sep]. *)
Definition join (sep : string) (l : list string) : string := String.concat sep l.

(** ToString, as applied by [+] with a string operand and by template
    literals. *)
Fixpoint ToString (v : value) : string :=
  match v with
  | VUndefined => "undefined"
  | VNull => "null"
  | VBool true => "true"
  | VBool false => "false"
  | VNumber n | VBigInt n => pretty n
  | VNaN => "NaN"
  | VString s => s
  | VArray elems =>
      join ","
        ((fix each (l : list value) : list string :=
            match l with
            | [] => []
            | VUndefined :: l' | VNull :: l' => EmptyString :: each l'
            | x :: l' => ToString x :: each l'
            end) elems)
  | VObject _ => "[object Object]"
  | VError name message =>
      if String.eqb message EmptyString then name
      else if String.eqb name EmptyString then message
      else name +:+ ": " +:+ message
  end.

(** What a call produces: a value, or an exception. *)
Inductive outcome (A : Type) : Type :=
| Returned (a : A)
| Thrown (e : value).
Arguments Returned {A} a.
Arguments Thrown {A} e.

(** *** JSON.stringify *)

Definition hex_digit (n : N) : ascii :=
  ascii_of_N (if (n <? 10)%N then 48 + n else 87 + n).

(** QuoteJSONString, one character at a time. *)
Definition quote_char (c : ascii) : string :=
  let n := N_of_ascii c in
  if (n =? 8)%N then "\b"
  else if (n =? 9)%N then "\t"
  else if (n =? 10)%N then "\n"
  else if (n =? 12)%N then "\f"
  else if (n =? 13)%N then "\r"
  else if (n =? 34)%N then String "\" (String c EmptyString)
  else if (n =? 92)%N then "\\"
  else if (n <? 32)%N then
    "\u00" +:+ String (hex_digit (n / 16)) (String (hex_digit (n mod 16)) EmptyString)
  else String c EmptyString.

Fixpoint quote_chars (s : string) : string :=
  match s with
  | EmptyString => EmptyString
  | String c s' => quote_char c +:+ quote_chars s'
  end.

(** The double quote character, as a string. *)
Definition dq : string := String (ascii_of_N 34) EmptyString.

Definition QuoteJSONString (s : string) : string :=
  dq +:+ quote_chars s +:+ dq.

(** SerializeJSONProperty: [Returned None] is [undefined] (the property is
    left out of an object and printed [null] in an array); a BigInt throws a
    TypeError. *)
Fixpoint SerializeJSONProperty (v : value) : outcome (option string) :=
  match v with
  | VUndefined => Returned None
  | VNull | VNaN => Returned (Some "null")
  | VBool true => Returned (Some "true")
  | VBool false => Returned (Some "false")
  | VNumber n => Returned (Some (pretty n))
  | VBigInt _ => Thrown (VError "TypeError" "Do not know how to serialize a BigInt")
  | VString s => Returned (Some (QuoteJSONString s))
  | VError _ _ => Returned (Some "{}")
  | VArray elems =>
      match
        (fix each (l : list value) : outcome (list string) :=
           match l with
           | [] => Returned []
           | x :: l' =>
               match SerializeJSONProperty x with
               | Thrown e => Thrown e
               | Returned o =>
                   match each l' with
                   | Thrown e => Thrown e
                   | Returned ss => Returned (default "null" o :: ss)
                   end
               end
           end) elems
      with
      | Thrown e => Thrown e
      | Returned ss => Returned (Some ("[" +:+ join "," ss +:+ "]"))
      end
  | VObject props =>
      match
        (fix each (l : list (string * value)) : outcome (list string) :=
           match l with
           | [] => Returned []
           | (k, x) :: l' =>
               match SerializeJSONProperty x with
               | Thrown e => Thrown e
               | Returned o =>
                   match each l' with
                   | Thrown e => Thrown e
                   | Returned ss =>
                       Returned
                         (match o with
                          | Some s => (QuoteJSONString k +:+ ":" +:+ s) :: ss
                          | None => ss
                          end)
                   end
               end
           end) props
      with
      | Thrown e => Thrown e
      | Returned ss => Returned (Some ("{" +:+ join "," ss +:+ "}"))
      end
  end.

(** [JSON.stringify(v)]: a string, or [undefined]. *)
Definition JSON_stringify (v : value) : outcome value :=
  match SerializeJSONProperty v with
  | Thrown e => Thrown e
  | Returned (Some s) => Returned (VString s)
  | Returned None => Returned VUndefined
  end.

(** ** URLs *)

(** The state of a [URL] object: its components other than the query, as
    the serializer writes them, and [searchParams], the list of name-value
    pairs of the [URLSearchParams] object tied to the URL.  Changing the list
    rewrites the URL's query from it, and the strategy changes the list of
    every URL it prints, so the query itself is not kept. *)
Record URL : Type := {
  protocol : string;
  username : string;
  password : string;
  host : string;
  pathname : string;
  searchParams : list (string * string);
  hash : string;
}.

Definition with_searchParams (l : list (string * string)) (u : URL) : URL :=
  {| protocol := protocol u; username := username u; password := password u;
     host := host u; pathname := pathname u; searchParams := l; hash := hash u |}.

Module URLSearchParams.

Definition named (name : string) (p : string * string) : bool :=
  String.eqb (fst p) name.

(** [has(name)] *)
Definition has (name : string) (l : list (string * string)) : bool :=
  existsb (named name) l.

(** [get(name)]: the value of the first pair named [name]. *)
Fixpoint get (name : string) (l : list (string * string)) : option string :=
  match l with
  | [] => None
  | (n, v) :: l' => if String.eqb n name then Some v else get name l'
  end.

(** [getAll(name)]: the values of the pairs named [name], in order. *)
Definition getAll (name : string) (l : list (string * string)) : list string :=
  snd <$> List.filter (named name) l.

(** [delete(name)]: remove all pairs named [name]. *)
Definition delete (name : string) (l : list (string * string)) : list (string * string) :=
  List.filter (fun p => negb (named name p)) l.

(** [set(name, value)]: if there are pairs named [name], set the value of
    the first to [value] and remove the others; otherwise append. *)
Fixpoint set (name value : string) (l : list (string * string)) : list (string * string) :=
  match l with
  | [] => [(name, value)]
  | (n, v) :: l' =>
      if String.eqb n name then (n, value) :: delete name l'
      else (n, v) :: set name value l'
  end.

End URLSearchParams.

(** [url.searchParams.delete(name)] and [url.searchParams.set(name, value)] *)
Definition searchParams_delete (name : string) (u : URL) : URL :=
  with_searchParams (URLSearchParams.delete name (searchParams u)) u.

Definition searchParams_set (name value : string) (u : URL) : URL :=
  with_searchParams (URLSearchParams.set name value (searchParams u)) u.

(** ** The data of the strategy *)

(** [CasOptions] *)
Record CasOptions : Type := {
  base : string;
  loginRoute : string;
  validateRoute : string;
  logoutRoute : string;
  serverUrl : string;
}.

(** What the parser builds for an element, under [XML_PARSE_OPTIONS]
    ([explicitArray: false], the default [emptyTag]): an element with
    attributes or child elements becomes an object; an element with neither
    becomes a string, its text, which is the empty string for an empty
    element.  The interfaces of the source declare the object; the string is
    what the code meets as well, and the empty string is falsy. *)

(** The success branch: the text, or [CasAuthenticationSuccess<Attributes>],
    [{ user, attributes }], where the attributes are whatever the parser
    built. *)
Inductive CasAuthenticationSuccess : Type :=
| SuccessText (text : string)
| SuccessElement (user : string) (attributes : value).

(** The value itself, as the truthiness test, [JSON.stringify] and the hook
    see it. *)
Definition success_object (s : CasAuthenticationSuccess) : value :=
  match s with
  | SuccessText text => VString text
  | SuccessElement user attributes =>
      VObject [("user", VString user); ("attributes", attributes)]
  end.

(** The attributes of the failure element: [{ code?: any }]. *)
Record FailureAttributes : Type := {
  code : option value;
}.

(** The failure branch: the text, or [CasAuthenticationFailure],
    [{ $?: { code?: any } }]. *)
Inductive CasAuthenticationFailure : Type :=
| FailureText (text : string)
| FailureElement (dollar : option FailureAttributes).

(** [failure.$]; a string has no such property. *)
Definition dollar (failure : CasAuthenticationFailure) : option FailureAttributes :=
  match failure with
  | FailureText _ => None
  | FailureElement d => d
  end.

(** The value itself, as the truthiness test sees it. *)
Definition failure_value (failure : CasAuthenticationFailure) : value :=
  match failure with
  | FailureText text => VString text
  | FailureElement d =>
      VObject
        match d with
        | Some a =>
            [("$", VObject match code a with
                           | Some c => [("code", c)]
                           | None => []
                           end)]
        | None => []
        end
  end.

(** [CasServiceResponse<Attributes>]: each branch is there or not ([None]:
    the property is undefined).  A root without attributes and without child
    elements, for which the parser gives a string, has neither branch. *)
Record CasServiceResponse : Type := {
  authenticationsuccess : option CasAuthenticationSuccess;
  authenticationfailure : option CasAuthenticationFailure;
}.

(** The branch, when it is there and truthy: what [if (branch)] lets
    through. *)
Definition if_truthy {A : Type} (to_value : A -> value) (branch : option A) : option A :=
  match branch with
  | Some a => if truthy (to_value a) then Some a else None
  | None => None
  end.

(** The [result] of the parser: [{ serviceresponse?: ... }]. *)
Record ParseResult : Type := {
  serviceresponse : option CasServiceResponse;
}.

(** What [xml2js.parseString] passes to its callback: [(err, result)], with
    [err: Error | null] and a [result] that may be null. *)
Record ParseCallbackArgs : Type := {
  parse_err : value;
  parse_result : option ParseResult;
}.

(** The response of [axios.get]: the promise resolves with a response or
    rejects. *)
Record AxiosResponse : Type := {
  status : Z;
  statusText : string;
  data : string;
}.

Inductive AxiosResult : Type :=
| Resolved (res : AxiosResponse)
| Rejected (reason : value).

(** The part of [express.Request] the strategy reads: [req.originalUrl],
    [req.query] (read as strings, as the casts of the source do) and
    [req.logout].  [req_logout] is what the host's [logout] does with the
    callback it is given before it returns: [Some err] when it calls it, with
    [err]; [None] when it does not (it may call it later). *)
Record Request : Type := {
  originalUrl : string;
  query : gmap string string;
  req_logout : option value;
}.

(** [req.query.name]: the string, or [undefined]. *)
Definition query_param (req : Request) (name : string) : value :=
  match query req !! name with
  | Some s => VString s
  | None => VUndefined
  end.

(** What the platform and the libraries provide. *)
Record Platform : Type := {
  (** [new URL(input, base)]; [None] when the constructor throws *)
  new_URL : string -> string -> option URL;
  (** [url.toString()] *)
  URL_toString : URL -> string;
  (** [axios.get(url)], awaited *)
  axios_get : string -> AxiosResult;
  (** [xml2js.parseString(body, XML_PARSE_OPTIONS, callback)] *)
  parseString : string -> ParseCallbackArgs;
}.

(** The fields of a [CasStrategy]; the two loggers are optional, and a logger
    that is there is called. *)
Record CasStrategy : Type := {
  config : CasOptions;
  errorLogger : bool;
  debugLogger : bool;
}.

(** ** Effects *)

(** The calls the strategy makes on its surroundings. *)
Inductive event : Type :=
| LogDebug (msg : value)                    (* this.debugLogger(msg) *)
| LogError (msg : string) (err : value)     (* this.errorLogger(msg, err) *)
| ReqLogout                                 (* req.logout(callback) *)
| HttpGet (url : string)                    (* axios.get(url) *)
| Verify (profile : CasAuthenticationSuccess) (* this.verify(profile, done) *)
| Redirect (url : string)                   (* this.redirect(url) *)
| Fail (challenge : value)                  (* this.fail(challenge) *)
| Success (user : value) (info : value).    (* this.success(user, info) *)

(** A computation: the calls made, and how it ended. *)
Definition M (A : Type) : Type := list event * outcome A.

#[export] Instance M_ret : MRet M := fun A a => ([], Returned a).

#[export] Instance M_bind : MBind M := fun A B f m =>
  match m with
  | (t, Returned a) => let (t', r) := f a in (t ++ t', r)
  | (t, Thrown e) => (t, Thrown e)
  end.

Definition emit (e : event) : M unit := ([e], Returned tt).

Definition throw {A} (e : value) : M A := ([], Thrown e).

(** A call of a pure function that may throw. *)
Definition lift {A} (o : outcome A) : M A := ([], o).

Definition trace {A} (m : M A) : list event := fst m.
Definition result {A} (m : M A) : outcome A := snd m.

(** An event that declares the outcome of the attempt. *)
Definition is_outcome (e : event) : bool :=
  match e with
  | Fail _ | Success _ _ => true
  | _ => false
  end.

Definition is_Verify (e : event) : bool :=
  match e with Verify _ => true | _ => false end.

Definition is_Redirect (e : event) : bool :=
  match e with Redirect _ => true | _ => false end.

Definition is_Fail (e : event) : bool :=
  match e with Fail _ => true | _ => false end.

(** ** The strategy *)

Section Strategy.

Context (P : Platform) (this : CasStrategy).

(** [logError] and [logDebug] call the logger when there is one. *)
Definition logError (msg : string) (err : value) : M unit :=
  if errorLogger this then emit (LogError msg err) else mret tt.

Definition logDebug (msg : value) : M unit :=
  if debugLogger this then emit (LogDebug msg) else mret tt.

(** The actions a passport strategy is given. *)
Definition redirect (url : string) : M unit := emit (Redirect url).
Definition fail (challenge : value) : M unit := emit (Fail challenge).
Definition success (user info : value) : M unit := emit (Success user info).

(** The host's hook, called with the profile and [done]; the hook's calls
    of [done], whenever they happen, are calls of [onceVerified]. *)
Definition verify (profile : CasAuthenticationSuccess) : M unit :=
  emit (Verify profile).

(** [new URL(input, base)] *)
Definition construct_URL (input base : string) : M URL :=
  match new_URL P input base with
  | Some u => mret u
  | None => throw (VError "TypeError" "Invalid URL")
  end.

(** [await axios.get(url)] *)
Definition await_axios_get (url : string) : M AxiosResponse :=
  emit (HttpGet url);;
  match axios_get P url with
  | Resolved res => mret res
  | Rejected reason => throw reason
  end.

(** Finish the authentication process (index.ts, [onceVerified]). *)
Definition onceVerified (err profile info challenge : value) : M unit :=
  if truthy err then
    (logError "CAS verified callback error" err;;
     fail challenge)
  else if negb (truthy profile) then
    (logDebug (VString "CAS verified callback error: invalid profile");;
     s ← lift (JSON_stringify profile);
     logDebug s;;
     fail challenge)
  else
    (logDebug (VString "CAS verified callback success");;
     s ← lift (JSON_stringify profile);
     logDebug s;;
     success profile info).

(** [result.serviceresponse.authenticationfailure.$?.code] *)
Definition failure_code (failure : CasAuthenticationFailure) : value :=
  match dollar failure with
  | Some a => default VUndefined (code a)
  | None => VUndefined
  end.

(** Read the validation response (index.ts, [validate]); [done] is called
    with two arguments, so [info] and [challenge] are [undefined]. *)
Definition validate (body : string) : M unit :=
  let done := fun err profile => onceVerified err profile VUndefined VUndefined in
  let args := parseString P body in
  match (if truthy (parse_err args) then None else parse_result args) with
  | None =>
      (* XML parsing failed *)
      done (new_Error "Bad response from server") VNull
  | Some result =>
      match if_truthy failure_value (serviceresponse result ≫= authenticationfailure) with
      | Some failure =>
          done (new_Error ("Authentication failed " +:+ ToString (failure_code failure))) VNull
      | None =>
          let success := serviceresponse result ≫= authenticationsuccess in
          match if_truthy success_object success with
          | Some success =>
              logDebug (VString "CAS validate: ticket ok, calling user verify function");;
              s ← lift (JSON_stringify (success_object success));
              logDebug (VString ("Got profile: " +:+ ToString s));;
              verify success
          | None =>
              done (new_Error "Authentication failed") VNull
          end
      end
  end.

(** The callback given to [req.logout]. *)
Definition logout_callback (err : value) : M unit :=
  if truthy err then logError "Failed to log request out" err else mret tt.

(** Logout handler (index.ts, [logout]). *)
Definition logout (req : Request) : M unit :=
  emit ReqLogout;;
  match req_logout req with
  | Some err => logout_callback err
  | None => mret tt
  end;;
  redirectURL ← construct_URL (logoutRoute (config this)) (base (config this));
  let redirectURL := searchParams_set "_eventId" "next" redirectURL in
  let redirectURL :=
    searchParams_set "RelayState" (ToString (query_param req "RelayState")) redirectURL in
  redirect (URL_toString P redirectURL).

(** Extract the service of the request by removing the ticket parameter
    (index.ts, [getReqService]). *)
Definition getReqService (req : Request) : M string :=
  url ← construct_URL (originalUrl req) (serverUrl (config this));
  let url := searchParams_delete "ticket" url in
  mret (URL_toString P url).

(** index.ts, [authenticate] *)
Definition authenticate (req : Request) : M unit :=
  if truthy (query_param req "RelayState") then
    (logDebug (VString "RelayState present, logging out");;
     logout req)
  else
    (service ← getReqService req;
     logDebug (VString ("Extracted service: " +:+ service));;
     let ticket := query_param req "ticket" in
     if negb (truthy ticket) then
       (logDebug (VString "No ticket provided, starting login process");;
        redirectURL ← construct_URL (loginRoute (config this)) (base (config this));
        let redirectURL := searchParams_set "service" service redirectURL in
        redirect (URL_toString P redirectURL))
     else
       (logDebug (VString ("Got ticket " +:+ ToString ticket +:+ ", starting validation process"));;
        target ← construct_URL (validateRoute (config this)) (base (config this));
        let target := searchParams_set "ticket" (ToString ticket) target in
        let target := searchParams_set "service" service target in
        res ← await_axios_get (URL_toString P target);
        if (status res =? 200)%Z then
          (logDebug (VString ("Got info: " +:+ data res));;
           validate (data res))
        else
          (let err := statusText res in
           logError "Failed to validate ticket" (VString err);;
           fail (new_Error err)))).

End Strategy.

(** ** Vocabulary of the properties *)

(** The events logged when the logger is there. *)
Definition logged (logger : bool) (l : list event) : list event :=
  if logger then l else [].

(** The text a failure reason carries: the reason itself when it is a
    string, its message when it is an [Error] or an object with a string
    [message] (passport's [StrategyFailure]). *)
Definition reason_text (r : value) : option string :=
  match r with
  | VString s => Some s
  | VError _ m => Some m
  | VObject props =>
      match List.find (fun p => String.eqb (fst p) "message") props with
      | Some (_, VString m) => Some m
      | _ => None
      end
  | _ => None
  end.

(** [needle] occurs in [s]. *)
Definition occurs_in (needle s : string) : Prop :=
  exists pre post, s = pre +:+ needle +:+ post.

(** The attempt fails with a reason whose text satisfies [ok]. *)
Definition fails_with (ok : string -> Prop) (t : list event) : Prop :=
  exists r s, Fail r ∈ t /\ reason_text r = Some s /\ ok s.

(** The hook is not called in [t]. *)
Definition hook_not_invoked (t : list event) : Prop :=
  forall profile, Verify profile ∉ t.

(** No success and no failure is declared in [t]. *)
Definition no_outcome (t : list event) : Prop :=
  forall e, e ∈ t -> is_outcome e = false.

(** The parser reported an error, or gave no result. *)
Definition parse_failed (args : ParseCallbackArgs) : Prop :=
  truthy (parse_err args) = true \/ parse_result args = None.

(** The document was parsed and has no root service-response element. *)
Definition lacks_root (args : ParseCallbackArgs) : Prop :=
  truthy (parse_err args) = false /\
  exists r, parse_result args = Some r /\ serviceresponse r = None.

(** The document was parsed and its root is [sr]. *)
Definition parsed_root (args : ParseCallbackArgs) (sr : CasServiceResponse) : Prop :=
  truthy (parse_err args) = false /\
  exists r, parse_result args = Some r /\ serviceresponse r = Some sr.

(** What [validate] does on a response it turns down: the error goes to the
    error logger and the attempt fails with no challenge. *)
Definition turned_down (this : CasStrategy) (message : string) : list event :=
  logged (errorLogger this) [LogError "CAS verified callback error" (new_Error message)]
  ++ [Fail VUndefined].

(** What the callback given to [req.logout] leaves in the trace when the
    host calls it before [logout] goes on. *)
Definition logout_report (this : CasStrategy) (req : Request) : list event :=
  match req_logout req with
  | Some err =>
      if truthy err then logged (errorLogger this) [LogError "Failed to log request out" err]
      else []
  | None => []
  end.

(** The components of a URL other than its query. *)
Definition outside_query (u : URL) : string * string * string * string * string * string :=
  (protocol u, username u, password u, host u, pathname u, hash u).

(** The profile of the example: user alice, attributes [{email: "a@x.com"}]. *)
Definition alice : CasAuthenticationSuccess :=
  SuccessElement "alice" (VObject [("email", VString "a@x.com")]).

(** A failure branch with the given error code. *)
Definition failure_with_code (c : string) : CasAuthenticationFailure :=
  FailureElement (Some {| code := Some (VString c) |}).

(** An empty failure element without attributes, [<cas:authenticationFailure/>]. *)
Definition empty_failure : CasAuthenticationFailure := FailureText EmptyString.

(** The root has no failure branch that is truthy: the branch is not there,
    or it is the empty string. *)
Definition no_truthy_failure (sr : CasServiceResponse) : Prop :=
  forall failure,
    authenticationfailure sr = Some failure -> truthy (failure_value failure) = false.

(** ** A small platform, to run the strategy on examples *)

(** A [URL] implementation for absolute URLs with an authority
    ([scheme://host/path?query#fragment]) and for path-absolute references
    ([/path?query#fragment]) resolved against such a base; anything else is
    rejected.  The query is read and written as
    application/x-www-form-urlencoded. *)
Module Sample.

(** [s] up to the first [c], and what follows that [c]. *)
Fixpoint split_char (c : ascii) (s : string) : string * option string :=
  match s with
  | EmptyString => (EmptyString, None)
  | String a s' =>
      if Ascii.eqb a c then (EmptyString, Some s')
      else let (b, r) := split_char c s' in (String a b, r)
  end.

(** The pieces of [s] between the occurrences of [c]. *)
Fixpoint split_on (c : ascii) (s : string) : list string :=
  match s with
  | EmptyString => [EmptyString]
  | String a s' =>
      if Ascii.eqb a c then EmptyString :: split_on c s'
      else match split_on c s' with
           | [] => [String a EmptyString]
           | p :: ps => String a p :: ps
           end
  end.

Definition hex_value (c : ascii) : option N :=
  let n := N_of_ascii c in
  if ((48 <=? n) && (n <=? 57))%N then Some (n - 48)%N
  else if ((65 <=? n) && (n <=? 70))%N then Some (n - 55)%N
  else if ((97 <=? n) && (n <=? 102))%N then Some (n - 87)%N
  else None.

(** [+] to space, then percent-decoding. *)
Fixpoint urldecode (s : string) : string :=
  match s with
  | EmptyString => EmptyString
  | String c rest =>
      if Ascii.eqb c "%" then
        match rest with
        | String a (String b s') =>
            match hex_value a, hex_value b with
            | Some x, Some y => String (ascii_of_N (16 * x + y)) (urldecode s')
            | _, _ => String c (urldecode rest)
            end
        | _ => String c (urldecode rest)
        end
      else String (if Ascii.eqb c "+" then " "%char else c) (urldecode rest)
  end.

Definition parse_pair (piece : string) : string * string :=
  let (n, v) := split_char "=" piece in
  (urldecode n, urldecode (default EmptyString v)).

Definition parse_query (q : string) : list (string * string) :=
  parse_pair <$> List.filter (fun piece => negb (String.eqb piece EmptyString)) (split_on "&" q).

Definition upper_hex_digit (n : N) : ascii :=
  ascii_of_N (if (n <? 10)%N then 48 + n else 55 + n).

Definition urlencode_char (c : ascii) : string :=
  let n := N_of_ascii c in
  if (n =? 32)%N then "+"
  else if (((48 <=? n) && (n <=? 57)) || ((65 <=? n) && (n <=? 90))
           || ((97 <=? n) && (n <=? 122))
           || (n =? 42) || (n =? 45) || (n =? 46) || (n =? 95))%N
  then String c EmptyString
  else String "%" (String (upper_hex_digit (n / 16))
                     (String (upper_hex_digit (n mod 16)) EmptyString)).

Fixpoint urlencode (s : string) : string :=
  match s with
  | EmptyString => EmptyString
  | String c s' => urlencode_char c +:+ urlencode s'
  end.

Definition serialize_query (l : list (string * string)) : string :=
  join "&" ((fun p => urlencode (fst p) +:+ "=" +:+ urlencode (snd p)) <$> l).

(** The scheme (with its colon) and host of [scheme://host...], and the
    rest, from the path on. *)
Definition parse_origin (s : string) : option (string * string * string) :=
  match split_char ":" s with
  | (scheme, Some (String "/" (String "/" rest))) =>
      if String.eqb scheme EmptyString then None
      else
        let (h, p) := split_char "/" rest in
        if String.eqb h EmptyString then None
        else Some (scheme +:+ ":", h, "/" +:+ default EmptyString p)
  | _ => None
  end.

Definition parse (input base : string) : option URL :=
  let (front, fragment) := split_char "#" input in
  let (path, q) := split_char "?" front in
  let make (proto h p : string) : URL :=
    {| protocol := proto; username := EmptyString; password := EmptyString;
       host := h; pathname := p;
       searchParams := parse_query (default EmptyString q);
       hash := match fragment with
               | Some f => if String.eqb f EmptyString then f else "#" +:+ f
               | None => EmptyString
               end |} in
  match path with
  | String "/" (String "/" _) => None
  | String "/" _ =>
      match parse_origin (fst (split_char "?" (fst (split_char "#" base)))) with
      | Some (proto, h, _) => Some (make proto h path)
      | None => None
      end
  | _ =>
      match parse_origin path with
      | Some (proto, h, p) => Some (make proto h p)
      | None => None
      end
  end.

Definition href (u : URL) : string :=
  protocol u +:+ "//" +:+ host u +:+ pathname u
  +:+ (match searchParams u with
       | [] => EmptyString
       | l => "?" +:+ serialize_query l
       end)
  +:+ hash u.

(** The platform with this [URL], a GET that always ends as [get] and a
    parser that always calls back with [parsed]. *)
Definition platform (get : AxiosResult) (parsed : ParseCallbackArgs) : Platform :=
  {| new_URL := parse; URL_toString := href;
     axios_get := fun _ => get; parseString := fun _ => parsed |}.

Definition options : CasOptions :=
  {| base := "https://cas.example.org";
     loginRoute := "/login";
     validateRoute := "/serviceValidate";
     logoutRoute := "/logout";
     serverUrl := "https://app.example.org" |}.

(** A strategy with both loggers, and one with none. *)
Definition strategy : CasStrategy :=
  {| config := options; errorLogger := true; debugLogger := true |}.

Definition quiet : CasStrategy :=
  {| config := options; errorLogger := false; debugLogger := false |}.

Definition request (url : string) (q : list (string * string)) : Request :=
  {| originalUrl := url; query := list_to_map q; req_logout := None |}.

(** The request, on a host whose [logout] calls back with [err]. *)
Definition logging_out (err : value) (r : Request) : Request :=
  {| originalUrl := originalUrl r; query := query r; req_logout := Some err |}.

Definition no_response : AxiosResult :=
  Rejected (VError "AxiosError" "connect ECONNREFUSED 127.0.0.1:443").

(** The parser's callback arguments on an empty body, on a body that is
    not XML, and on a document with another root. *)
Definition unparsed : ParseCallbackArgs :=
  {| parse_err := VNull; parse_result := None |}.

Definition parse_error : ParseCallbackArgs :=
  {| parse_err := VError "Error" "Non-whitespace before first tag.";
     parse_result := None |}.

Definition other_root : ParseCallbackArgs :=
  {| parse_err := VNull; parse_result := Some {| serviceresponse := None |} |}.

Definition parsed (r : CasServiceResponse) : ParseCallbackArgs :=
  {| parse_err := VNull; parse_result := Some {| serviceresponse := Some r |} |}.

Definition ok (body : string) : AxiosResult :=
  Resolved {| status := 200; statusText := "OK"; data := body |}.

End Sample.

(** ** Further vocabulary *)

(** The calls of the loggers. *)
Definition is_log (e : event) : bool :=
  match e with
  | LogDebug _ | LogError _ _ => true
  | _ => false
  end.

(** The trace without the calls of the loggers. *)
Definition erase_logs (t : list event) : list event :=
  List.filter (fun e => negb (is_log e)) t.

Definition is_Success (e : event) : bool :=
  match e with Success _ _ => true | _ => false end.

Definition is_HttpGet (e : event) : bool :=
  match e with HttpGet _ => true | _ => false end.

(** The calls that end the strategy's part of an attempt: a redirect, a
    declared outcome, or the call of the host's hook. *)
Definition is_terminal (e : event) : bool :=
  match e with
  | Redirect _ | Fail _ | Success _ _ | Verify _ => true
  | _ => false
  end.

(** The same strategy, built without loggers. *)
Definition silenced (this : CasStrategy) : CasStrategy :=
  {| config := config this; errorLogger := false; debugLogger := false |}.

(** No BigInt anywhere in the value. *)
Fixpoint bigint_free (v : value) : bool :=
  match v with
  | VBigInt _ => false
  | VArray elems =>
      (fix each (l : list value) : bool :=
         match l with
         | [] => true
         | x :: l' => bigint_free x && each l'
         end) elems
  | VObject props =>
      (fix each (l : list (string * value)) : bool :=
         match l with
         | [] => true
         | (_, x) :: l' => bigint_free x && each l'
         end) props
  | _ => true
  end.

(** The request with the property [name] of [req.query] removed. *)
Definition without_param (name : string) (req : Request) : Request :=
  {| originalUrl := originalUrl req;
     query := base.delete name (query req);
     req_logout := req_logout req |}.

(** A failure branch without the [$] property, and one whose [$] has no
    [code]. *)
Definition failure_without_attributes : CasAuthenticationFailure :=
  FailureElement None.

Definition failure_without_code : CasAuthenticationFailure :=
  FailureElement (Some {| code := None |}).

(** A strategy whose base URL lacks its scheme, so that no route resolves
    against it. *)
Definition misconfigured : CasStrategy :=
  {| config := {| base := "cas.example.org";
                  loginRoute := "/login";
                  validateRoute := "/serviceValidate";
                  logoutRoute := "/logout";
                  serverUrl := "https://app.example.org" |};
     errorLogger := true; debugLogger := true |}.

(** The platform [P] with another parser. *)
Definition with_parseString (parser : string -> ParseCallbackArgs) (P : Platform) : Platform :=
  {| new_URL := new_URL P; URL_toString := URL_toString P;
     axios_get := axios_get P; parseString := parser |}.

(** * Properties *)

(** ** The monad *)

Lemma bind_ret_l {A B} (a : A) (f : A -> M B) : (mret a ≫= f) = f a.
Proof. unfold mbind, M_bind, mret, M_ret. destruct (f a). reflexivity. Qed.

Lemma bind_ret_r {A} (m : M A) : (m ≫= mret) = m.
Proof.
  destruct m as [t [a|e]]; unfold mbind, M_bind, mret, M_ret; [|reflexivity].
  rewrite app_nil_r. reflexivity.
Qed.

Lemma bind_assoc {A B C} (m : M A) (f : A -> M B) (g : B -> M C) :
  ((m ≫= f) ≫= g) = (m ≫= fun a => f a ≫= g).
Proof.
  destruct m as [t [a|e]]; unfold mbind, M_bind; [|reflexivity].
  destruct (f a) as [t' [b|e]]; [|reflexivity].
  destruct (g b) as [t'' r]. rewrite app_assoc. reflexivity.
Qed.

(** An exception ends the computation: what follows leaves no trace. *)
Lemma bind_throw {A B} (e : value) (f : A -> M B) : (throw e ≫= f) = throw e.
Proof. reflexivity. Qed.

(** ** JavaScript values *)

Example JSON_stringify_sample :
  JSON_stringify (VObject [("user", VString "bob"); ("n", VNumber 3); ("u", VUndefined);
                           ("l", VArray [VNull; VUndefined; VBool true])])
  = Returned (VString ("{" +:+ dq +:+ "user" +:+ dq +:+ ":" +:+ dq +:+ "bob" +:+ dq +:+ ","
                       +:+ dq +:+ "n" +:+ dq +:+ ":3,"
                       +:+ dq +:+ "l" +:+ dq +:+ ":[null,null,true]}")).
Proof. vm_compute. reflexivity. Qed.

Example ToString_sample :
  ToString (VArray [VNumber 1; VNull; VString "a"; VArray [VBool true; VUndefined]])
  = "1,,a,true,".
Proof. vm_compute. reflexivity. Qed.

(** ** [onceVerified] *)

Section OnceVerified.

Context (this : CasStrategy).

(** A truthy [err]: the error goes to the error logger and the attempt
    fails with [challenge]. *)
Lemma onceVerified_err err profile info challenge :
  truthy err = true ->
  onceVerified this err profile info challenge
  = (logged (errorLogger this) [LogError "CAS verified callback error" err]
     ++ [Fail challenge], Returned tt).
Proof.
  intros H. unfold onceVerified, logError, fail. rewrite H.
  destruct (errorLogger this); reflexivity.
Qed.

(** A falsy [err] and a falsy [profile] that [JSON.stringify] prints: the
    attempt fails with [challenge]. *)
Lemma onceVerified_no_profile err profile info challenge s :
  truthy err = false -> truthy profile = false ->
  JSON_stringify profile = Returned s ->
  onceVerified this err profile info challenge
  = (logged (debugLogger this)
       [LogDebug (VString "CAS verified callback error: invalid profile"); LogDebug s]
     ++ [Fail challenge], Returned tt).
Proof.
  intros He Hp Hs. unfold onceVerified, logDebug, fail, lift. rewrite He, Hp, Hs.
  destruct (debugLogger this); reflexivity.
Qed.

(** A falsy [err] and a truthy [profile] that [JSON.stringify] prints: the
    attempt succeeds with [profile] and [info]. *)
Lemma onceVerified_profile err profile info challenge s :
  truthy err = false -> truthy profile = true ->
  JSON_stringify profile = Returned s ->
  onceVerified this err profile info challenge
  = (logged (debugLogger this)
       [LogDebug (VString "CAS verified callback success"); LogDebug s]
     ++ [Success profile info], Returned tt).
Proof.
  intros He Hp Hs. unfold onceVerified, logDebug, success, lift. rewrite He, Hp, Hs.
  destruct (debugLogger this); reflexivity.
Qed.

(** A falsy [err] and a [profile] that [JSON.stringify] rejects: the
    exception leaves [onceVerified] before any outcome is declared. *)
Lemma onceVerified_stringify_throws err profile info challenge e :
  truthy err = false ->
  JSON_stringify profile = Thrown e ->
  onceVerified this err profile info challenge
  = (logged (debugLogger this)
       [LogDebug (VString (if truthy profile then "CAS verified callback success"
                           else "CAS verified callback error: invalid profile"))],
     Thrown e).
Proof.
  intros He Hs. unfold onceVerified, logDebug, lift. rewrite He, Hs.
  destruct (truthy profile), (debugLogger this); reflexivity.
Qed.

End OnceVerified.

(** C1. The completion callback does not reach [success] for every truthy
    profile: with a falsy [err] and the profile [{id: 10n}], which is truthy,
    [JSON.stringify(profile)] (evaluated for the debug log, whether or not
    there is a debug logger) throws a TypeError, the exception leaves
    [onceVerified], and neither [success] nor [fail] is called. *)
Theorem onceVerified_unserializable_profile_throws
    (this : CasStrategy) (info challenge : value) :
  let profile := VObject [("id", VBigInt 10)] in
  truthy VNull = false /\ truthy profile = true /\
  onceVerified this VNull profile info challenge
  = (logged (debugLogger this) [LogDebug (VString "CAS verified callback success")],
     Thrown (VError "TypeError" "Do not know how to serialize a BigInt")) /\
  no_outcome (trace (onceVerified this VNull profile info challenge)).
Proof.
  intros profile. split; [reflexivity|]. split; [reflexivity|].
  assert (Hrun : onceVerified this VNull profile info challenge
    = (logged (debugLogger this) [LogDebug (VString "CAS verified callback success")],
       Thrown (VError "TypeError" "Do not know how to serialize a BigInt"))).
  { rewrite (onceVerified_stringify_throws this VNull profile info challenge
               (VError "TypeError" "Do not know how to serialize a BigInt"));
      reflexivity. }
  split; [exact Hrun|].
  rewrite Hrun. intros e He. unfold trace, logged in He. simpl in He.
  destruct (debugLogger this).
  - apply list_elem_of_singleton in He. subst e. reflexivity.
  - apply elem_of_nil in He. destruct He.
Qed.

(** ** [validate] *)

Section Validate.

Context (P : Platform) (this : CasStrategy).

Lemma done_Error message :
  onceVerified this (new_Error message) VNull VUndefined VUndefined
  = (turned_down this message, Returned tt).
Proof. apply onceVerified_err. reflexivity. Qed.

Lemma validate_parse_failed body :
  parse_failed (parseString P body) ->
  validate P this body = (turned_down this "Bad response from server", Returned tt).
Proof.
  intros H. unfold validate.
  destruct H as [H|H].
  - rewrite H. apply done_Error.
  - rewrite H. destruct (truthy _); apply done_Error.
Qed.

Lemma validate_lacks_root body :
  lacks_root (parseString P body) ->
  validate P this body = (turned_down this "Authentication failed", Returned tt).
Proof.
  intros [He (r & Hr & Hroot)]. unfold validate.
  rewrite He, Hr, Hroot. apply done_Error.
Qed.

Lemma no_truthy_failure_absent sr :
  authenticationfailure sr = None -> no_truthy_failure sr.
Proof. intros H failure Hf. congruence. Qed.

Lemma if_truthy_no_failure sr :
  no_truthy_failure sr -> if_truthy failure_value (authenticationfailure sr) = None.
Proof.
  intros H. unfold if_truthy.
  destruct (authenticationfailure sr) as [failure|] eqn:Hf; [|reflexivity].
  rewrite (H failure Hf). reflexivity.
Qed.

(** A failure branch that carries a code is an object, hence truthy. *)
Lemma failure_code_truthy failure c :
  failure_code failure = VString c -> truthy (failure_value failure) = true.
Proof. destruct failure; [discriminate | reflexivity]. Qed.

Lemma validate_failure_branch body sr failure :
  parsed_root (parseString P body) sr ->
  authenticationfailure sr = Some failure ->
  truthy (failure_value failure) = true ->
  validate P this body
  = (turned_down this ("Authentication failed " +:+ ToString (failure_code failure)),
     Returned tt).
Proof.
  intros [He (r & Hr & Hroot)] Hf Ht. unfold validate.
  rewrite He, Hr, Hroot. simpl. rewrite Hf. simpl. rewrite Ht. apply done_Error.
Qed.

Lemma validate_success_branch body sr profile s :
  parsed_root (parseString P body) sr ->
  no_truthy_failure sr ->
  authenticationsuccess sr = Some profile ->
  truthy (success_object profile) = true ->
  JSON_stringify (success_object profile) = Returned s ->
  validate P this body
  = (logged (debugLogger this)
       [LogDebug (VString "CAS validate: ticket ok, calling user verify function");
        LogDebug (VString ("Got profile: " +:+ ToString s))]
     ++ [Verify profile], Returned tt).
Proof.
  intros [He (r & Hr & Hroot)] Hf Hs Ht Hjson. unfold validate.
  rewrite He, Hr, Hroot. simpl. rewrite (if_truthy_no_failure sr Hf), Hs. simpl. rewrite Ht.
  unfold logDebug, lift, verify. rewrite Hjson.
  destruct (debugLogger this); reflexivity.
Qed.

Lemma validate_no_truthy_branch body sr :
  parsed_root (parseString P body) sr ->
  no_truthy_failure sr ->
  if_truthy success_object (authenticationsuccess sr) = None ->
  validate P this body = (turned_down this "Authentication failed", Returned tt).
Proof.
  intros [He (r & Hr & Hroot)] Hf Hs. unfold validate.
  rewrite He, Hr, Hroot. simpl. rewrite (if_truthy_no_failure sr Hf), Hs. apply done_Error.
Qed.

Lemma validate_neither_branch body sr :
  parsed_root (parseString P body) sr ->
  authenticationfailure sr = None ->
  authenticationsuccess sr = None ->
  validate P this body = (turned_down this "Authentication failed", Returned tt).
Proof.
  intros Hroot Hf Hs. apply (validate_no_truthy_branch body sr Hroot).
  - apply no_truthy_failure_absent. exact Hf.
  - rewrite Hs. reflexivity.
Qed.

(** What a turned-down response leaves in the trace. *)
Lemma turned_down_outcome message :
  List.filter is_outcome (turned_down this message) = [Fail VUndefined].
Proof. unfold turned_down, logged. destruct (errorLogger this); reflexivity. Qed.

Lemma turned_down_no_hook message : hook_not_invoked (turned_down this message).
Proof.
  intros profile H. unfold turned_down, logged in H.
  destruct (errorLogger this); simpl in H;
    repeat (apply elem_of_cons in H as [H|H]; [discriminate H|]);
    apply elem_of_nil in H; exact H.
Qed.

Lemma turned_down_no_text ok message : ~ fails_with ok (turned_down this message).
Proof.
  intros (r & s & Hin & Htext & _). unfold turned_down, logged in Hin.
  assert (r = VUndefined) as ->.
  { destruct (errorLogger this); simpl in Hin;
      repeat (apply elem_of_cons in Hin as [Hin|Hin]; [congruence|]);
      apply elem_of_nil in Hin; destruct Hin. }
  discriminate Htext.
Qed.

End Validate.

(** C3 (as amended). A body that fails to parse (the parser reports an error
    or gives no result) is turned down with the error "Bad response from
    server", a parsed document without the root service-response element with
    the error "Authentication failed"; in both cases the error only goes to
    the error logger, the one outcome declared is a failure with an undefined
    reason, and the verification hook is not invoked. *)
Theorem validate_malformed_response (P : Platform) (this : CasStrategy) (body : string) :
  parse_failed (parseString P body) \/ lacks_root (parseString P body) ->
  exists message,
    validate P this body = (turned_down this message, Returned tt)
    /\ (parse_failed (parseString P body) -> message = "Bad response from server")
    /\ (lacks_root (parseString P body) -> message = "Authentication failed")
    /\ List.filter is_outcome (trace (validate P this body)) = [Fail VUndefined]
    /\ hook_not_invoked (trace (validate P this body)).
Proof.
  intros [H|H].
  - exists "Bad response from server".
    rewrite (validate_parse_failed P this body H).
    split; [reflexivity|]. split; [reflexivity|]. split.
    + intros [He (r & Hr & _)]. destruct H as [H|H]; congruence.
    + split; [apply turned_down_outcome | apply turned_down_no_hook].
  - exists "Authentication failed".
    rewrite (validate_lacks_root P this body H).
    split; [reflexivity|]. split.
    + destruct H as [He (r & Hr & _)]. intros [H|H]; congruence.
    + split; [reflexivity|].
      split; [apply turned_down_outcome | apply turned_down_no_hook].
Qed.

Lemma validate_malformed_response_witness :
  let P := Sample.platform (Sample.ok "not xml") Sample.parse_error in
  (parse_failed (parseString P "not xml") \/ lacks_root (parseString P "not xml"))
  /\ exists message,
       validate P Sample.strategy "not xml" = (turned_down Sample.strategy message, Returned tt)
       /\ (parse_failed (parseString P "not xml") -> message = "Bad response from server")
       /\ (lacks_root (parseString P "not xml") -> message = "Authentication failed")
       /\ List.filter is_outcome (trace (validate P Sample.strategy "not xml")) = [Fail VUndefined]
       /\ hook_not_invoked (trace (validate P Sample.strategy "not xml")).
Proof.
  intros P.
  assert (H : parse_failed (parseString P "not xml") \/ lacks_root (parseString P "not xml")).
  { left. left. reflexivity. }
  split; [exact H|].
  exact (validate_malformed_response P Sample.strategy "not xml" H).
Defined.

(** C3, as stated, fails: when the body does not parse, and when the parsed
    document has another root, no failure is declared with a reason that
    reads "Bad response from server". *)
Lemma validate_bad_response_reason_counterexample :
  let reads_bad_response := fun s : string => s = "Bad response from server" in
  (parse_failed Sample.parse_error /\
   ~ fails_with reads_bad_response
       (trace (validate (Sample.platform (Sample.ok "not xml") Sample.parse_error)
                 Sample.strategy "not xml")))
  /\
  (lacks_root Sample.other_root /\
   ~ fails_with reads_bad_response
       (trace (validate (Sample.platform (Sample.ok "<html/>") Sample.other_root)
                 Sample.strategy "<html/>"))).
Proof.
  intros reads. split; split.
  - left. reflexivity.
  - apply (turned_down_no_text Sample.strategy reads "Bad response from server").
  - split; [reflexivity|]. eexists. split; reflexivity.
  - apply (turned_down_no_text Sample.strategy reads "Authentication failed").
Qed.

(** C4 (as amended). A response whose failure branch has the error code
    INVALID_TICKET is turned down with the error "Authentication failed
    INVALID_TICKET"; that error only goes to the error logger, the one
    outcome declared is a failure with an undefined reason, and the
    verification hook is never invoked. *)
Theorem validate_invalid_ticket
    (P : Platform) (this : CasStrategy) (body : string)
    (sr : CasServiceResponse) (failure : CasAuthenticationFailure) :
  parsed_root (parseString P body) sr ->
  authenticationfailure sr = Some failure ->
  failure_code failure = VString "INVALID_TICKET" ->
  validate P this body
  = (turned_down this "Authentication failed INVALID_TICKET", Returned tt)
  /\ (errorLogger this = true ->
      LogError "CAS verified callback error"
        (new_Error "Authentication failed INVALID_TICKET") ∈ trace (validate P this body))
  /\ List.filter is_outcome (trace (validate P this body)) = [Fail VUndefined]
  /\ hook_not_invoked (trace (validate P this body)).
Proof.
  intros Hroot Hf Hcode.
  rewrite (validate_failure_branch P this body sr failure Hroot Hf
             (failure_code_truthy failure "INVALID_TICKET" Hcode)), Hcode.
  split; [reflexivity|]. split.
  - intros Hlog. unfold trace, turned_down. simpl. rewrite Hlog. apply list_elem_of_here.
  - split; [apply turned_down_outcome | apply turned_down_no_hook].
Qed.

Lemma validate_invalid_ticket_witness :
  let sr := {| authenticationsuccess := None;
               authenticationfailure := Some (failure_with_code "INVALID_TICKET") |} in
  let P := Sample.platform (Sample.ok "<cas:serviceResponse/>") (Sample.parsed sr) in
  parsed_root (parseString P "<cas:serviceResponse/>") sr
  /\ authenticationfailure sr = Some (failure_with_code "INVALID_TICKET")
  /\ failure_code (failure_with_code "INVALID_TICKET") = VString "INVALID_TICKET"
  /\ validate P Sample.strategy "<cas:serviceResponse/>"
     = (turned_down Sample.strategy "Authentication failed INVALID_TICKET", Returned tt).
Proof.
  intros sr P.
  assert (Hroot : parsed_root (parseString P "<cas:serviceResponse/>") sr).
  { split; [reflexivity|]. eexists. split; reflexivity. }
  split; [exact Hroot|]. split; [reflexivity|]. split; [reflexivity|].
  exact (proj1 (validate_invalid_ticket P Sample.strategy "<cas:serviceResponse/>" sr
                  (failure_with_code "INVALID_TICKET") Hroot eq_refl eq_refl)).
Defined.

(** C4, as stated, fails: on a failure branch with code INVALID_TICKET no
    failure is declared with a reason that contains INVALID_TICKET. *)
Lemma validate_invalid_ticket_reason_counterexample :
  let sr := {| authenticationsuccess := None;
               authenticationfailure := Some (failure_with_code "INVALID_TICKET") |} in
  ~ fails_with (occurs_in "INVALID_TICKET")
      (trace (validate (Sample.platform (Sample.ok "<cas:serviceResponse/>") (Sample.parsed sr))
                Sample.strategy "<cas:serviceResponse/>")).
Proof.
  intros sr.
  apply (turned_down_no_text Sample.strategy (occurs_in "INVALID_TICKET")
           "Authentication failed INVALID_TICKET").
Qed.

(** C9 (as amended). When the root has both a failure branch that is
    truthy (any failure element but an empty one without attributes, for
    which the parser gives the empty string) and a success branch, the
    failure branch, checked first, decides: the one outcome declared is a
    failure and the verification hook is never invoked. *)
Theorem validate_failure_takes_precedence
    (P : Platform) (this : CasStrategy) (body : string) (sr : CasServiceResponse)
    (failure : CasAuthenticationFailure) (profile : CasAuthenticationSuccess) :
  parsed_root (parseString P body) sr ->
  authenticationfailure sr = Some failure ->
  truthy (failure_value failure) = true ->
  authenticationsuccess sr = Some profile ->
  validate P this body
  = (turned_down this ("Authentication failed " +:+ ToString (failure_code failure)),
     Returned tt)
  /\ List.filter is_outcome (trace (validate P this body)) = [Fail VUndefined]
  /\ hook_not_invoked (trace (validate P this body)).
Proof.
  intros Hroot Hf Ht _.
  rewrite (validate_failure_branch P this body sr failure Hroot Hf Ht).
  split; [reflexivity|].
  split; [apply turned_down_outcome | apply turned_down_no_hook].
Qed.

Lemma validate_failure_takes_precedence_witness :
  let sr := {| authenticationsuccess := Some alice;
               authenticationfailure := Some (failure_with_code "INVALID_TICKET") |} in
  let P := Sample.platform (Sample.ok "<cas:serviceResponse/>") (Sample.parsed sr) in
  parsed_root (parseString P "<cas:serviceResponse/>") sr
  /\ authenticationfailure sr = Some (failure_with_code "INVALID_TICKET")
  /\ truthy (failure_value (failure_with_code "INVALID_TICKET")) = true
  /\ authenticationsuccess sr = Some alice
  /\ List.filter is_outcome (trace (validate P Sample.strategy "<cas:serviceResponse/>"))
     = [Fail VUndefined]
  /\ hook_not_invoked (trace (validate P Sample.strategy "<cas:serviceResponse/>")).
Proof.
  intros sr P.
  assert (Hroot : parsed_root (parseString P "<cas:serviceResponse/>") sr).
  { split; [reflexivity|]. eexists. split; reflexivity. }
  split; [exact Hroot|]. split; [reflexivity|]. split; [reflexivity|]. split; [reflexivity|].
  exact (proj2 (validate_failure_takes_precedence P Sample.strategy "<cas:serviceResponse/>" sr
                  (failure_with_code "INVALID_TICKET") alice Hroot eq_refl eq_refl eq_refl)).
Defined.

(** C9, as stated, fails: when the failure branch of the root is an empty
    element, the root has both branches and yet the success branch decides:
    the hook is invoked and no failure is declared. *)
Lemma validate_empty_failure_counterexample :
  let sr := {| authenticationsuccess := Some alice;
               authenticationfailure := Some empty_failure |} in
  let P := Sample.platform (Sample.ok "<cas:serviceResponse/>") (Sample.parsed sr) in
  parsed_root (parseString P "<cas:serviceResponse/>") sr
  /\ authenticationfailure sr = Some empty_failure
  /\ authenticationsuccess sr = Some alice
  /\ Verify alice ∈ trace (validate P Sample.quiet "<cas:serviceResponse/>")
  /\ List.filter is_outcome (trace (validate P Sample.quiet "<cas:serviceResponse/>")) = [].
Proof.
  intros sr P. split.
  - split; [reflexivity|]. eexists. split; reflexivity.
  - split; [reflexivity|]. split; [reflexivity|].
    assert (Hrun : validate P Sample.quiet "<cas:serviceResponse/>"
                   = ([Verify alice], Returned tt)) by (vm_compute; reflexivity).
    rewrite Hrun. split; [apply list_elem_of_here | reflexivity].
Qed.




(** ** [URLSearchParams] *)

Module URLSearchParamsFacts.

Import URLSearchParams.

Lemma named_pair n v name : named name (n, v) = String.eqb n name.
Proof. reflexivity. Qed.

Lemma has_delete name l : has name (delete name l) = false.
Proof.
  induction l as [|p l IH]; [reflexivity|].
  unfold delete in *. simpl. destruct (named name p) eqn:E; simpl; [exact IH|].
  unfold has in *. simpl. rewrite E. exact IH.
Qed.

Lemma getAll_delete_eq name l : getAll name (delete name l) = [].
Proof.
  induction l as [|p l IH]; [reflexivity|].
  unfold getAll, delete in *. simpl. destruct (named name p) eqn:E; simpl; [exact IH|].
  rewrite E. exact IH.
Qed.

Lemma getAll_delete_ne name name' l :
  name' <> name -> getAll name' (delete name l) = getAll name' l.
Proof.
  intros Hne. induction l as [|[n v] l IH]; [reflexivity|].
  unfold getAll, delete in *. simpl. rewrite !named_pair.
  destruct (String.eqb n name) eqn:E; simpl.
  - apply String.eqb_eq in E. subst n.
    assert (String.eqb name name' = false) as ->
      by (apply String.eqb_neq; congruence).
    exact IH.
  - rewrite named_pair. destruct (String.eqb n name'); simpl; [f_equal|]; exact IH.
Qed.

Lemma delete_sublist name l : sublist (delete name l) l.
Proof.
  induction l as [|p l IH]; [constructor|].
  unfold delete in *. simpl. destruct (named name p); simpl; constructor; exact IH.
Qed.

Lemma delete_keeps name l p : p ∈ l -> fst p <> name -> p ∈ delete name l.
Proof.
  intros Hin Hne. apply list_elem_of_In. apply filter_In. split.
  - apply list_elem_of_In. exact Hin.
  - unfold named. apply negb_true_iff. apply String.eqb_neq. exact Hne.
Qed.

Lemma delete_absent name l : has name l = false -> delete name l = l.
Proof.
  induction l as [|p l IH]; [reflexivity|].
  unfold has, delete in *. simpl. intros H.
  apply orb_false_iff in H as [Hp Hl]. rewrite Hp. simpl. f_equal. exact (IH Hl).
Qed.

Lemma delete_idempotent name l : delete name (delete name l) = delete name l.
Proof. apply delete_absent, has_delete. Qed.

Lemma get_set_eq name v l : get name (set name v l) = Some v.
Proof.
  induction l as [|[n w] l IH]; simpl.
  - rewrite String.eqb_refl. reflexivity.
  - destruct (String.eqb n name) eqn:E; simpl; rewrite E; [reflexivity | exact IH].
Qed.

Lemma get_delete_ne name n l : n <> name -> get n (delete name l) = get n l.
Proof.
  intros Hne. induction l as [|[m w] l IH]; [reflexivity|].
  unfold delete in *. simpl. rewrite named_pair.
  destruct (String.eqb m name) eqn:E; simpl.
  - apply String.eqb_eq in E. subst m.
    assert (String.eqb name n = false) as -> by (apply String.eqb_neq; congruence).
    exact IH.
  - destruct (String.eqb m n); [reflexivity | exact IH].
Qed.

Lemma get_set_ne name n v l : n <> name -> get n (set name v l) = get n l.
Proof.
  intros Hne. induction l as [|[m w] l IH]; simpl.
  - assert (String.eqb name n = false) as -> by (apply String.eqb_neq; congruence).
    reflexivity.
  - destruct (String.eqb m name) eqn:E; simpl.
    + apply String.eqb_eq in E. subst m.
      assert (String.eqb name n = false) as -> by (apply String.eqb_neq; congruence).
      apply get_delete_ne. exact Hne.
    + destruct (String.eqb m n); [reflexivity | exact IH].
Qed.

Lemma getAll_set_eq name v l : getAll name (set name v l) = [v].
Proof.
  induction l as [|[n w] l IH].
  - unfold getAll. simpl. rewrite named_pair, String.eqb_refl. reflexivity.
  - simpl. destruct (String.eqb n name) eqn:E.
    + unfold getAll. simpl. rewrite named_pair, E. simpl. f_equal.
      apply (getAll_delete_eq name l).
    + unfold getAll in *. simpl. rewrite named_pair, E. exact IH.
Qed.

Lemma getAll_set_ne name name' v l :
  name' <> name -> getAll name' (set name v l) = getAll name' l.
Proof.
  intros Hne.
  assert (Hb : String.eqb name name' = false) by (apply String.eqb_neq; congruence).
  induction l as [|[n w] l IH].
  - unfold getAll. simpl. rewrite named_pair, Hb. reflexivity.
  - simpl. destruct (String.eqb n name) eqn:E.
    + apply String.eqb_eq in E. subst n.
      change (getAll name' ((name, v) :: delete name l))
        with (snd <$> List.filter (named name') ((name, v) :: delete name l)).
      change (getAll name' ((name, w) :: l))
        with (snd <$> List.filter (named name') ((name, w) :: l)).
      simpl. rewrite !named_pair, Hb.
      apply (getAll_delete_ne name name' l Hne).
    + change (getAll name' ((n, w) :: set name v l))
        with (snd <$> List.filter (named name') ((n, w) :: set name v l)).
      change (getAll name' ((n, w) :: l))
        with (snd <$> List.filter (named name') ((n, w) :: l)).
      simpl. rewrite !named_pair.
      destruct (String.eqb n name'); simpl; [f_equal|]; exact IH.
Qed.

End URLSearchParamsFacts.

Lemma searchParams_delete_outside name u :
  outside_query (searchParams_delete name u) = outside_query u.
Proof. reflexivity. Qed.

Lemma searchParams_set_outside name v u :
  outside_query (searchParams_set name v u) = outside_query u.
Proof. reflexivity. Qed.

Lemma searchParams_delete_idempotent name u :
  searchParams_delete name (searchParams_delete name u) = searchParams_delete name u.
Proof.
  unfold searchParams_delete, with_searchParams. simpl.
  rewrite URLSearchParamsFacts.delete_idempotent. reflexivity.
Qed.

Lemma searchParams_delete_absent name u :
  URLSearchParams.has name (searchParams u) = false -> searchParams_delete name u = u.
Proof.
  intros H. unfold searchParams_delete, with_searchParams.
  rewrite (URLSearchParamsFacts.delete_absent name _ H). destruct u; reflexivity.
Qed.

(** ** [getReqService] *)

Section GetReqService.

Context (P : Platform) (this : CasStrategy).

Lemma getReqService_parsed req u :
  new_URL P (originalUrl req) (serverUrl (config this)) = Some u ->
  getReqService P this req
  = ([], Returned (URL_toString P (searchParams_delete "ticket" u))).
Proof. intros H. unfold getReqService, construct_URL. rewrite H. reflexivity. Qed.

Lemma getReqService_rejected req :
  new_URL P (originalUrl req) (serverUrl (config this)) = None ->
  getReqService P this req = ([], Thrown (VError "TypeError" "Invalid URL")).
Proof. intros H. unfold getReqService, construct_URL. rewrite H. reflexivity. Qed.

(** Resolving from the URL with its ticket removed gives the same string. *)
Lemma getReqService_stripped req req' u :
  new_URL P (originalUrl req) (serverUrl (config this)) = Some u ->
  new_URL P (originalUrl req') (serverUrl (config this))
  = Some (searchParams_delete "ticket" u) ->
  getReqService P this req' = getReqService P this req.
Proof.
  intros H H'.
  rewrite (getReqService_parsed req u H), (getReqService_parsed req' _ H').
  rewrite searchParams_delete_idempotent. reflexivity.
Qed.

End GetReqService.

(** C10. Service URL resolution removes every pair named ticket from the
    query, repeated ones included, keeps every other pair with its value, in
    the same order, and leaves the rest of the URL (protocol, credentials,
    host, path, fragment) as it was; the result is the string form of that
    URL. *)
Theorem getReqService_removes_ticket (P : Platform) (this : CasStrategy) (req : Request) (u : URL) :
  new_URL P (originalUrl req) (serverUrl (config this)) = Some u ->
  exists u',
    getReqService P this req = ([], Returned (URL_toString P u'))
    /\ URLSearchParams.getAll "ticket" (searchParams u') = []
    /\ (forall name, name <> "ticket" ->
        URLSearchParams.getAll name (searchParams u')
        = URLSearchParams.getAll name (searchParams u))
    /\ (forall p, p ∈ searchParams u -> fst p <> "ticket" -> p ∈ searchParams u')
    /\ sublist (searchParams u') (searchParams u)
    /\ pathname u' = pathname u
    /\ host u' = host u
    /\ outside_query u' = outside_query u.
Proof.
  intros H. exists (searchParams_delete "ticket" u).
  split; [apply getReqService_parsed; exact H|].
  split; [apply URLSearchParamsFacts.getAll_delete_eq|].
  split; [intros name Hne; apply URLSearchParamsFacts.getAll_delete_ne; exact Hne|].
  split; [intros p Hin Hne; apply URLSearchParamsFacts.delete_keeps; assumption|].
  split; [apply URLSearchParamsFacts.delete_sublist|].
  repeat split.
Qed.

Lemma getReqService_removes_ticket_witness :
  let P := Sample.platform Sample.no_response Sample.unparsed in
  let req := Sample.request "/private?a=1&ticket=ST-1&b=x+y&ticket=ST-2#top"
               [("a", "1"); ("ticket", "ST-1"); ("b", "x y")] in
  let u := {| protocol := "https:"; username := EmptyString; password := EmptyString;
              host := "app.example.org"; pathname := "/private";
              searchParams := [("a", "1"); ("ticket", "ST-1"); ("b", "x y"); ("ticket", "ST-2")];
              hash := "#top" |} in
  new_URL P (originalUrl req) (serverUrl (config Sample.strategy)) = Some u
  /\ exists u',
       getReqService P Sample.strategy req = ([], Returned (URL_toString P u'))
       /\ URLSearchParams.getAll "ticket" (searchParams u') = []
       /\ (forall name, name <> "ticket" ->
           URLSearchParams.getAll name (searchParams u')
           = URLSearchParams.getAll name (searchParams u))
       /\ (forall p, p ∈ searchParams u -> fst p <> "ticket" -> p ∈ searchParams u')
       /\ sublist (searchParams u') (searchParams u)
       /\ pathname u' = pathname u
       /\ host u' = host u
       /\ outside_query u' = outside_query u.
Proof.
  intros P req u.
  assert (H : new_URL P (originalUrl req) (serverUrl (config Sample.strategy)) = Some u)
    by (vm_compute; reflexivity).
  split; [exact H|].
  exact (getReqService_removes_ticket P Sample.strategy req u H).
Defined.

(** C8. For a request whose URL has no ticket parameter, resolving the
    service URL gives the same string as resolving it from the same request
    after ticket removal, that is from a request whose URL is the first one
    with its ticket parameters deleted. *)
Theorem getReqService_idempotent
    (P : Platform) (this : CasStrategy) (req req' : Request) (u : URL) :
  new_URL P (originalUrl req) (serverUrl (config this)) = Some u ->
  URLSearchParams.has "ticket" (searchParams u) = false ->
  new_URL P (originalUrl req') (serverUrl (config this))
  = Some (searchParams_delete "ticket" u) ->
  getReqService P this req' = getReqService P this req
  /\ result (getReqService P this req) = Returned (URL_toString P u).
Proof.
  intros H Hno H'. split.
  - apply (getReqService_stripped P this req req' u H H').
  - rewrite (getReqService_parsed P this req u H).
    rewrite (searchParams_delete_absent "ticket" u Hno). reflexivity.
Qed.

Lemma getReqService_idempotent_witness :
  let P := Sample.platform Sample.no_response Sample.unparsed in
  let req := Sample.request "/private?a=1" [("a", "1")] in
  let req' := Sample.request "https://app.example.org/private?a=1" [("a", "1")] in
  let u := {| protocol := "https:"; username := EmptyString; password := EmptyString;
              host := "app.example.org"; pathname := "/private";
              searchParams := [("a", "1")]; hash := EmptyString |} in
  new_URL P (originalUrl req) (serverUrl (config Sample.strategy)) = Some u
  /\ URLSearchParams.has "ticket" (searchParams u) = false
  /\ new_URL P (originalUrl req') (serverUrl (config Sample.strategy))
     = Some (searchParams_delete "ticket" u)
  /\ originalUrl req' = URL_toString P (searchParams_delete "ticket" u)
  /\ getReqService P Sample.strategy req' = getReqService P Sample.strategy req.
Proof.
  intros P req req' u.
  assert (H : new_URL P (originalUrl req) (serverUrl (config Sample.strategy)) = Some u)
    by (vm_compute; reflexivity).
  assert (Hno : URLSearchParams.has "ticket" (searchParams u) = false) by reflexivity.
  assert (H' : new_URL P (originalUrl req') (serverUrl (config Sample.strategy))
               = Some (searchParams_delete "ticket" u)) by (vm_compute; reflexivity).
  split; [exact H|]. split; [exact Hno|]. split; [exact H'|].
  split; [vm_compute; reflexivity|].
  exact (proj1 (getReqService_idempotent P Sample.strategy req req' u H Hno H')).
Defined.

Example getReqService_sample :
  getReqService (Sample.platform Sample.no_response Sample.unparsed) Sample.strategy
    (Sample.request "/private?a=1&ticket=ST-1&b=x+y&ticket=ST-2#top" [])
  = ([], Returned "https://app.example.org/private?a=1&b=x+y#top").
Proof. vm_compute. reflexivity. Qed.

(** ** [authenticate] *)

Section Authenticate.

Context (P : Platform) (this : CasStrategy).

(** Without a truthy RelayState and without a truthy ticket: the redirect
    to the login route. *)
Lemma authenticate_login req u l :
  truthy (query_param req "RelayState") = false ->
  truthy (query_param req "ticket") = false ->
  new_URL P (originalUrl req) (serverUrl (config this)) = Some u ->
  new_URL P (loginRoute (config this)) (base (config this)) = Some l ->
  authenticate P this req
  = (logged (debugLogger this)
       [LogDebug (VString ("Extracted service: "
                           +:+ URL_toString P (searchParams_delete "ticket" u)));
        LogDebug (VString "No ticket provided, starting login process")]
     ++ [Redirect (URL_toString P
           (searchParams_set "service"
              (URL_toString P (searchParams_delete "ticket" u)) l))],
     Returned tt).
Proof.
  intros Hrs Ht Hu Hl. unfold authenticate. rewrite Hrs.
  rewrite (getReqService_parsed P this req u Hu). rewrite Ht.
  unfold construct_URL, logDebug, redirect. rewrite Hl.
  destruct (debugLogger this); reflexivity.
Qed.

(** With a truthy RelayState: local logout, then the redirect to the
    logout route. *)
Lemma authenticate_logout req l :
  truthy (query_param req "RelayState") = true ->
  new_URL P (logoutRoute (config this)) (base (config this)) = Some l ->
  authenticate P this req
  = (logged (debugLogger this) [LogDebug (VString "RelayState present, logging out")]
     ++ [ReqLogout] ++ logout_report this req
     ++ [Redirect (URL_toString P
           (searchParams_set "RelayState" (ToString (query_param req "RelayState"))
              (searchParams_set "_eventId" "next" l)))],
     Returned tt).
Proof.
  intros Hrs Hl. unfold authenticate. rewrite Hrs.
  unfold logout, logout_report, logout_callback, construct_URL, logDebug, logError, redirect.
  rewrite Hl.
  destruct (debugLogger this), (req_logout req) as [err|];
    try destruct (truthy err); try destruct (errorLogger this); reflexivity.
Qed.

(** With a truthy ticket and a GET that rejects: the rejection leaves
    [authenticate], and nothing was declared. *)
Lemma authenticate_rejected_get req u v ticket reason :
  truthy (query_param req "RelayState") = false ->
  query req !! "ticket" = Some ticket -> ticket <> EmptyString ->
  new_URL P (originalUrl req) (serverUrl (config this)) = Some u ->
  new_URL P (validateRoute (config this)) (base (config this)) = Some v ->
  let service := URL_toString P (searchParams_delete "ticket" u) in
  let target :=
    URL_toString P (searchParams_set "service" service (searchParams_set "ticket" ticket v)) in
  axios_get P target = Rejected reason ->
  authenticate P this req
  = (logged (debugLogger this)
       [LogDebug (VString ("Extracted service: " +:+ service));
        LogDebug (VString ("Got ticket " +:+ ticket +:+ ", starting validation process"))]
     ++ [HttpGet target],
     Thrown reason).
Proof.
  intros Hrs Ht Hne Hu Hv service target Hget. unfold authenticate. rewrite Hrs.
  rewrite (getReqService_parsed P this req u Hu).
  unfold query_param. rewrite Ht.
  assert (truthy (VString ticket) = true) as ->.
  { simpl. apply negb_true_iff, String.eqb_neq. exact Hne. }
  unfold construct_URL, await_axios_get, logDebug. rewrite Hv.
  cbv zeta. change (ToString (VString ticket)) with ticket.
  subst service target.
  destruct (debugLogger this); cbn in Hget |- *; rewrite Hget; reflexivity.
Qed.

(** With a truthy ticket and a response whose status is not 200: the
    status text is logged and the attempt fails with an [Error] made from
    it. *)
Lemma authenticate_not_200 req u v ticket res :
  truthy (query_param req "RelayState") = false ->
  query req !! "ticket" = Some ticket -> ticket <> EmptyString ->
  new_URL P (originalUrl req) (serverUrl (config this)) = Some u ->
  new_URL P (validateRoute (config this)) (base (config this)) = Some v ->
  let service := URL_toString P (searchParams_delete "ticket" u) in
  let target :=
    URL_toString P (searchParams_set "service" service (searchParams_set "ticket" ticket v)) in
  axios_get P target = Resolved res ->
  status res <> 200%Z ->
  authenticate P this req
  = (logged (debugLogger this)
       [LogDebug (VString ("Extracted service: " +:+ service));
        LogDebug (VString ("Got ticket " +:+ ticket +:+ ", starting validation process"))]
     ++ [HttpGet target]
     ++ logged (errorLogger this)
          [LogError "Failed to validate ticket" (VString (statusText res))]
     ++ [Fail (new_Error (statusText res))],
     Returned tt).
Proof.
  intros Hrs Ht Hne Hu Hv service target Hget Hstatus. unfold authenticate. rewrite Hrs.
  rewrite (getReqService_parsed P this req u Hu).
  unfold query_param. rewrite Ht.
  assert (truthy (VString ticket) = true) as ->.
  { simpl. apply negb_true_iff, String.eqb_neq. exact Hne. }
  unfold construct_URL, await_axios_get, logDebug, logError, fail. rewrite Hv.
  cbv zeta. change (ToString (VString ticket)) with ticket.
  subst service target. apply Z.eqb_neq in Hstatus.
  destruct (debugLogger this), (errorLogger this);
    cbn in Hget |- *; rewrite Hget; cbn; rewrite Hstatus; reflexivity.
Qed.

End Authenticate.

(** With a truthy ticket and a response of status 200: the body goes to
    [validate]. *)
Lemma authenticate_200 (P : Platform) (this : CasStrategy) req u v ticket res :
  truthy (query_param req "RelayState") = false ->
  query req !! "ticket" = Some ticket -> ticket <> EmptyString ->
  new_URL P (originalUrl req) (serverUrl (config this)) = Some u ->
  new_URL P (validateRoute (config this)) (base (config this)) = Some v ->
  let service := URL_toString P (searchParams_delete "ticket" u) in
  let target :=
    URL_toString P (searchParams_set "service" service (searchParams_set "ticket" ticket v)) in
  axios_get P target = Resolved res ->
  status res = 200%Z ->
  authenticate P this req
  = (logged (debugLogger this)
       [LogDebug (VString ("Extracted service: " +:+ service));
        LogDebug (VString ("Got ticket " +:+ ticket +:+ ", starting validation process"))]
     ++ [HttpGet target]
     ++ logged (debugLogger this) [LogDebug (VString ("Got info: " +:+ data res))]
     ++ trace (validate P this (data res)),
     result (validate P this (data res))).
Proof.
  intros Hrs Ht Hne Hu Hv service target Hget Hstatus. unfold authenticate. rewrite Hrs.
  rewrite (getReqService_parsed P this req u Hu).
  unfold query_param. rewrite Ht.
  assert (truthy (VString ticket) = true) as ->.
  { simpl. apply negb_true_iff, String.eqb_neq. exact Hne. }
  unfold construct_URL, await_axios_get, logDebug. rewrite Hv.
  cbv zeta. change (ToString (VString ticket)) with ticket.
  subst service target. apply Z.eqb_eq in Hstatus.
  destruct (debugLogger this);
    cbn in Hget |- *; rewrite Hget; cbn; rewrite Hstatus;
    destruct (validate P this (data res)); reflexivity.
Qed.

(** C5 (as amended). A request without a RelayState parameter and without
    a ticket parameter, whose URL resolves against the server URL, gets
    exactly one redirect, to the login route resolved against the base URL
    with its service parameter set to the resolved service URL, and the URL
    that service string is printed from has no ticket parameter. *)
Theorem authenticate_redirects_to_login
    (P : Platform) (this : CasStrategy) (req : Request) (u l : URL) :
  query req !! "RelayState" = None ->
  query req !! "ticket" = None ->
  new_URL P (originalUrl req) (serverUrl (config this)) = Some u ->
  new_URL P (loginRoute (config this)) (base (config this)) = Some l ->
  let resolved := searchParams_delete "ticket" u in
  let service := URL_toString P resolved in
  let target := searchParams_set "service" service l in
  authenticate P this req
  = (logged (debugLogger this)
       [LogDebug (VString ("Extracted service: " +:+ service));
        LogDebug (VString "No ticket provided, starting login process")]
     ++ [Redirect (URL_toString P target)],
     Returned tt)
  /\ List.filter is_Redirect (trace (authenticate P this req)) = [Redirect (URL_toString P target)]
  /\ getReqService P this req = ([], Returned service)
  /\ URLSearchParams.getAll "service" (searchParams target) = [service]
  /\ outside_query target = outside_query l
  /\ URLSearchParams.has "ticket" (searchParams resolved) = false.
Proof.
  intros Hrs Ht Hu Hl resolved service target.
  assert (Hrun := authenticate_login P this req u l).
  unfold query_param in Hrun. rewrite Hrs, Ht in Hrun.
  specialize (Hrun eq_refl eq_refl Hu Hl). fold resolved service target in Hrun.
  split; [exact Hrun|]. split.
  - rewrite Hrun. unfold trace, logged. destruct (debugLogger this); reflexivity.
  - split; [apply getReqService_parsed; exact Hu|].
    split; [apply URLSearchParamsFacts.getAll_set_eq|].
    split; [reflexivity|].
    apply URLSearchParamsFacts.has_delete.
Qed.

Lemma authenticate_redirects_to_login_witness :
  let P := Sample.platform Sample.no_response Sample.unparsed in
  let req := Sample.request "/private?a=1" [("a", "1")] in
  let u := {| protocol := "https:"; username := EmptyString; password := EmptyString;
              host := "app.example.org"; pathname := "/private";
              searchParams := [("a", "1")]; hash := EmptyString |} in
  let l := {| protocol := "https:"; username := EmptyString; password := EmptyString;
              host := "cas.example.org"; pathname := "/login";
              searchParams := []; hash := EmptyString |} in
  query req !! "RelayState" = None
  /\ query req !! "ticket" = None
  /\ new_URL P (originalUrl req) (serverUrl (config Sample.strategy)) = Some u
  /\ new_URL P (loginRoute (config Sample.strategy)) (base (config Sample.strategy)) = Some l
  /\ List.filter is_Redirect (trace (authenticate P Sample.strategy req))
     = [Redirect (URL_toString P
          (searchParams_set "service" (URL_toString P (searchParams_delete "ticket" u)) l))].
Proof.
  intros P req u l.
  assert (Hrs : query req !! "RelayState" = None) by (vm_compute; reflexivity).
  assert (Ht : query req !! "ticket" = None) by (vm_compute; reflexivity).
  assert (Hu : new_URL P (originalUrl req) (serverUrl (config Sample.strategy)) = Some u)
    by (vm_compute; reflexivity).
  assert (Hl : new_URL P (loginRoute (config Sample.strategy)) (base (config Sample.strategy))
               = Some l) by (vm_compute; reflexivity).
  split; [exact Hrs|]. split; [exact Ht|]. split; [exact Hu|]. split; [exact Hl|].
  exact (proj1 (proj2 (authenticate_redirects_to_login P Sample.strategy req u l Hrs Ht Hu Hl))).
Defined.

(** C5, as stated, fails: the request target [//] has no RelayState and no
    ticket, and it does not resolve against the server URL; [authenticate]
    throws the TypeError of the [URL] constructor and issues no redirect,
    although the login route resolves against the base URL. *)
Lemma authenticate_unresolvable_request_counterexample :
  let P := Sample.platform Sample.no_response Sample.unparsed in
  let req := Sample.request "//" [] in
  query req !! "RelayState" = None
  /\ query req !! "ticket" = None
  /\ new_URL P (originalUrl req) (serverUrl (config Sample.strategy)) = None
  /\ is_Some (new_URL P (loginRoute (config Sample.strategy)) (base (config Sample.strategy)))
  /\ authenticate P Sample.strategy req = ([], Thrown (VError "TypeError" "Invalid URL"))
  /\ List.filter is_Redirect (trace (authenticate P Sample.strategy req)) = [].
Proof.
  intros P req.
  split; [vm_compute; reflexivity|]. split; [vm_compute; reflexivity|].
  split; [vm_compute; reflexivity|]. split; [vm_compute; eexists; reflexivity|].
  split; vm_compute; reflexivity.
Qed.

Example authenticate_login_sample :
  authenticate (Sample.platform Sample.no_response Sample.unparsed) Sample.strategy
    (Sample.request "/private?a=1" [("a", "1")])
  = ([LogDebug (VString "Extracted service: https://app.example.org/private?a=1");
      LogDebug (VString "No ticket provided, starting login process");
      Redirect "https://cas.example.org/login?service=https%3A%2F%2Fapp.example.org%2Fprivate%3Fa%3D1"],
     Returned tt).
Proof. vm_compute. reflexivity. Qed.

(** C6 (as amended). A request whose RelayState parameter is not empty,
    with or without a ticket, gets [req.logout] called and then a redirect to
    the logout route resolved against the base URL, with the parameters
    [_eventId=next] and RelayState equal to the request's RelayState; an
    error reported by the local logout is only passed to the error logger
    and the redirect is issued all the same. *)
Theorem authenticate_logs_out
    (P : Platform) (this : CasStrategy) (req : Request) (relayState : string) (l : URL) :
  query req !! "RelayState" = Some relayState ->
  relayState <> EmptyString ->
  new_URL P (logoutRoute (config this)) (base (config this)) = Some l ->
  let target := searchParams_set "RelayState" relayState (searchParams_set "_eventId" "next" l) in
  authenticate P this req
  = (logged (debugLogger this) [LogDebug (VString "RelayState present, logging out")]
     ++ [ReqLogout] ++ logout_report this req ++ [Redirect (URL_toString P target)],
     Returned tt)
  /\ (forall e, e ∈ logout_report this req -> exists msg err, e = LogError msg err)
  /\ URLSearchParams.getAll "_eventId" (searchParams target) = ["next"]
  /\ URLSearchParams.getAll "RelayState" (searchParams target) = [relayState]
  /\ outside_query target = outside_query l.
Proof.
  intros Hrs Hne Hl target.
  assert (Hrun := authenticate_logout P this req l).
  unfold query_param in Hrun. rewrite Hrs in Hrun. simpl truthy in Hrun.
  assert (Htruthy : negb (String.eqb relayState EmptyString) = true)
    by (apply negb_true_iff, String.eqb_neq; exact Hne).
  specialize (Hrun Htruthy Hl). change (ToString (VString relayState)) with relayState in Hrun.
  split; [exact Hrun|]. split.
  - intros e He. unfold logout_report, logged in He.
    destruct (req_logout req) as [err|]; [|apply elem_of_nil in He; destruct He].
    destruct (truthy err), (errorLogger this);
      try (apply elem_of_nil in He; destruct He).
    apply list_elem_of_singleton in He. eauto.
  - split.
    + unfold target, searchParams_set, with_searchParams. simpl.
      rewrite URLSearchParamsFacts.getAll_set_ne by discriminate.
      apply URLSearchParamsFacts.getAll_set_eq.
    + split; [apply URLSearchParamsFacts.getAll_set_eq | reflexivity].
Qed.

Lemma authenticate_logs_out_witness :
  let P := Sample.platform Sample.no_response Sample.unparsed in
  let req := Sample.logging_out (VError "Error" "session store is down")
               (Sample.request "/private?RelayState=abc&ticket=ST-1"
                  [("RelayState", "abc"); ("ticket", "ST-1")]) in
  let l := {| protocol := "https:"; username := EmptyString; password := EmptyString;
              host := "cas.example.org"; pathname := "/logout";
              searchParams := []; hash := EmptyString |} in
  query req !! "RelayState" = Some "abc"
  /\ "abc" <> EmptyString
  /\ new_URL P (logoutRoute (config Sample.strategy)) (base (config Sample.strategy)) = Some l
  /\ authenticate P Sample.strategy req
     = (logged (debugLogger Sample.strategy)
          [LogDebug (VString "RelayState present, logging out")]
        ++ [ReqLogout] ++ logout_report Sample.strategy req
        ++ [Redirect (URL_toString P
              (searchParams_set "RelayState" "abc" (searchParams_set "_eventId" "next" l)))],
        Returned tt).
Proof.
  intros P req l.
  assert (Hrs : query req !! "RelayState" = Some "abc") by (vm_compute; reflexivity).
  assert (Hne : "abc" <> EmptyString) by discriminate.
  assert (Hl : new_URL P (logoutRoute (config Sample.strategy)) (base (config Sample.strategy))
               = Some l) by (vm_compute; reflexivity).
  split; [exact Hrs|]. split; [exact Hne|]. split; [exact Hl|].
  exact (proj1 (authenticate_logs_out P Sample.strategy req "abc" l Hrs Hne Hl)).
Defined.

Example authenticate_logout_sample :
  authenticate (Sample.platform Sample.no_response Sample.unparsed) Sample.strategy
    (Sample.logging_out (VError "Error" "session store is down")
       (Sample.request "/private?RelayState=abc&ticket=ST-1"
          [("RelayState", "abc"); ("ticket", "ST-1")]))
  = ([LogDebug (VString "RelayState present, logging out");
      ReqLogout;
      LogError "Failed to log request out" (VError "Error" "session store is down");
      Redirect "https://cas.example.org/logout?_eventId=next&RelayState=abc"],
     Returned tt).
Proof. vm_compute. reflexivity. Qed.

(** C6, as stated, fails: a request that carries a RelayState parameter with
    an empty value is not logged out; it is redirected to the login route. *)
Lemma authenticate_empty_RelayState_counterexample :
  let P := Sample.platform Sample.no_response Sample.unparsed in
  let req := Sample.request "/private?RelayState=" [("RelayState", EmptyString)] in
  let l := {| protocol := "https:"; username := EmptyString; password := EmptyString;
              host := "cas.example.org"; pathname := "/logout";
              searchParams := []; hash := EmptyString |} in
  query req !! "RelayState" = Some EmptyString
  /\ new_URL P (logoutRoute (config Sample.quiet)) (base (config Sample.quiet)) = Some l
  /\ authenticate P Sample.quiet req
     = ([Redirect "https://cas.example.org/login?service=https%3A%2F%2Fapp.example.org%2Fprivate%3FRelayState%3D"],
        Returned tt)
  /\ (ReqLogout ∉ trace (authenticate P Sample.quiet req))
  /\ (Redirect (URL_toString P
        (searchParams_set "RelayState" EmptyString (searchParams_set "_eventId" "next" l)))
      ∉ trace (authenticate P Sample.quiet req)).
Proof.
  intros P req l.
  assert (Hrun : authenticate P Sample.quiet req
    = ([Redirect "https://cas.example.org/login?service=https%3A%2F%2Fapp.example.org%2Fprivate%3FRelayState%3D"],
       Returned tt)) by (vm_compute; reflexivity).
  split; [vm_compute; reflexivity|]. split; [vm_compute; reflexivity|].
  split; [exact Hrun|]. rewrite Hrun. unfold trace. simpl. split.
  - intros H. apply list_elem_of_singleton in H. discriminate H.
  - intros H. apply list_elem_of_singleton in H. vm_compute in H. discriminate H.
Qed.

(** C2. A transport failure is not reported through [fail]: with a ticket
    in the request and a CAS server that cannot be reached, the rejection of
    [axios.get] leaves [authenticate] (its promise rejects) and [fail] is
    never called. *)
Theorem authenticate_transport_failure_escapes :
  let P := Sample.platform Sample.no_response Sample.unparsed in
  let req := Sample.request "/private?ticket=ST-1" [("ticket", "ST-1")] in
  authenticate P Sample.strategy req
  = ([LogDebug (VString "Extracted service: https://app.example.org/private");
      LogDebug (VString "Got ticket ST-1, starting validation process");
      HttpGet "https://cas.example.org/serviceValidate?ticket=ST-1&service=https%3A%2F%2Fapp.example.org%2Fprivate"],
     Thrown (VError "AxiosError" "connect ECONNREFUSED 127.0.0.1:443"))
  /\ List.filter is_Fail (trace (authenticate P Sample.strategy req)) = [].
Proof. intros P req. split; vm_compute; reflexivity. Qed.

(** The response of status 204 is the kind of failure that does reach
    [fail], with an [Error] made from the status text. *)
Example authenticate_not_200_sample :
  authenticate
    (Sample.platform
       (Resolved {| status := 204; statusText := "No Content"; data := EmptyString |})
       Sample.unparsed)
    Sample.quiet (Sample.request "/private?ticket=ST-1" [("ticket", "ST-1")])
  = ([HttpGet "https://cas.example.org/serviceValidate?ticket=ST-1&service=https%3A%2F%2Fapp.example.org%2Fprivate";
      Fail (VError "Error" "No Content")],
     Returned tt).
Proof. vm_compute. reflexivity. Qed.

(** * Further properties *)

(** ** [onceVerified], for every input *)

(** Case analysis on what [onceVerified] reads. *)
Ltac onceVerified_cases this err profile :=
  unfold onceVerified, logError, logDebug, fail, success, lift;
  destruct (truthy err) eqn:Herr;
  [| destruct (truthy profile) eqn:Hprofile;
     destruct (JSON_stringify profile) as [s|exn] eqn:Hjson ];
  destruct (errorLogger this), (debugLogger this); cbn.

(** Membership in a list that is written out. *)
Ltac in_explicit_list H :=
  repeat (apply elem_of_cons in H as [H|H]; [try discriminate H|]);
  try (apply elem_of_nil in H; destruct H).

(** X1. [onceVerified] calls [success] exactly when [err] is falsy, [profile]
    is truthy and [JSON.stringify(profile)] returns; the call is then
    [success(profile, info)]. *)
Theorem onceVerified_succeeds_iff
    (this : CasStrategy) (err profile info challenge u i : value) :
  Success u i ∈ trace (onceVerified this err profile info challenge)
  <-> truthy err = false /\ truthy profile = true
      /\ (exists s, JSON_stringify profile = Returned s)
      /\ u = profile /\ i = info.
Proof.
  split.
  - intros H. revert H. onceVerified_cases this err profile; intros H;
      in_explicit_list H; injection H as -> ->; repeat split; eauto.
  - intros (He & Hp & [s Hs] & -> & ->).
    rewrite (onceVerified_profile this err profile info challenge s He Hp Hs).
    unfold trace. simpl. apply elem_of_app. right. apply list_elem_of_here.
Qed.

(** X2. [onceVerified] calls [fail] exactly when [err] is truthy, or [err]
    and [profile] are falsy and [JSON.stringify(profile)] returns; the reason
    is always [challenge], never [err]. *)
Theorem onceVerified_fails_iff
    (this : CasStrategy) (err profile info challenge r : value) :
  Fail r ∈ trace (onceVerified this err profile info challenge)
  <-> r = challenge
      /\ (truthy err = true
          \/ (truthy err = false /\ truthy profile = false
              /\ exists s, JSON_stringify profile = Returned s)).
Proof.
  split.
  - intros H. revert H. onceVerified_cases this err profile; intros H;
      in_explicit_list H; injection H as ->;
      (split; [reflexivity|]);
      first [left; reflexivity | right; repeat split; eauto].
  - intros [-> [He | (He & Hp & [s Hs])]].
    + rewrite (onceVerified_err this err profile info challenge He).
      unfold trace. simpl. apply elem_of_app. right. apply list_elem_of_here.
    + rewrite (onceVerified_no_profile this err profile info challenge s He Hp Hs).
      unfold trace. simpl. apply elem_of_app. right. apply list_elem_of_here.
Qed.

(** When [onceVerified] throws, it is [JSON.stringify(profile)] that threw. *)
Lemma onceVerified_thrown_shape
    (this : CasStrategy) (err profile info challenge : value) :
  match result (onceVerified this err profile info challenge) with
  | Returned _ => True
  | Thrown exn => truthy err = false /\ JSON_stringify profile = Thrown exn
  end.
Proof.
  onceVerified_cases this err profile; solve [ exact I | split; reflexivity ].
Qed.

(** X3. Besides logging, [onceVerified] does one thing: when it returns, the
    last call it made declares the outcome and it made no other call outside
    the loggers; when it throws, [err] is falsy, the exception is the one of
    [JSON.stringify(profile)] and nothing was declared. *)
Theorem onceVerified_declares_once
    (this : CasStrategy) (err profile info challenge : value) :
  match result (onceVerified this err profile info challenge) with
  | Returned _ =>
      exists e, last (trace (onceVerified this err profile info challenge)) = Some e
                /\ erase_logs (trace (onceVerified this err profile info challenge)) = [e]
                /\ is_outcome e = true
  | Thrown exn =>
      erase_logs (trace (onceVerified this err profile info challenge)) = []
      /\ truthy err = false
      /\ JSON_stringify profile = Thrown exn
  end.
Proof.
  onceVerified_cases this err profile;
    solve [ eexists; repeat split; reflexivity | repeat split; reflexivity ].
Qed.

(** ** [JSON.stringify] on values without BigInt *)

(** Induction on values, with the hypothesis for every element of an array
    and every property value of an object. *)
Lemma value_nested_ind (Q : value -> Prop) :
  Q VUndefined -> Q VNull -> (forall b, Q (VBool b)) -> (forall n, Q (VNumber n)) ->
  Q VNaN -> (forall n, Q (VBigInt n)) -> (forall s, Q (VString s)) ->
  (forall elems, Forall Q elems -> Q (VArray elems)) ->
  (forall props, Forall (fun p => Q (snd p)) props -> Q (VObject props)) ->
  (forall name message, Q (VError name message)) ->
  forall v, Q v.
Proof.
  intros HU HN HB HNum HNaN HBig HS HA HO HE.
  fix IH 1. intros v. destruct v as [| |b|n| |n|s|elems|props|name message].
  - exact HU.
  - exact HN.
  - apply HB.
  - apply HNum.
  - exact HNaN.
  - apply HBig.
  - apply HS.
  - apply HA. induction elems as [|x l IHl]; constructor; [apply IH | exact IHl].
  - apply HO. induction props as [|[k x] l IHl]; constructor; [apply IH | exact IHl].
  - apply HE.
Qed.

Lemma SerializeJSONProperty_bigint_free (v : value) :
  bigint_free v = true -> exists o, SerializeJSONProperty v = Returned o.
Proof.
  induction v as [| |b|n| |n|s|elems IH|props IH|name message] using value_nested_ind;
    intros Hfree; try (simpl; eauto; fail).
  - destruct b; simpl; eauto.
  - discriminate Hfree.
  - simpl in *.
    assert (Heach : exists ss,
      (fix each (l : list value) : outcome (list string) :=
         match l with
         | [] => Returned []
         | x :: l' =>
             match SerializeJSONProperty x with
             | Thrown e => Thrown e
             | Returned o =>
                 match each l' with
                 | Thrown e => Thrown e
                 | Returned ss => Returned (default "null" o :: ss)
                 end
             end
         end) elems = Returned ss).
    { induction IH as [|x l Hx _ IHl]; [eauto|].
      apply andb_true_iff in Hfree as [Hfx Hfl].
      destruct (Hx Hfx) as [o ->]. destruct (IHl Hfl) as [ss ->]. eauto. }
    destruct Heach as [ss ->]. eauto.
  - simpl in *.
    assert (Heach : exists ss,
      (fix each (l : list (string * value)) : outcome (list string) :=
         match l with
         | [] => Returned []
         | (k, x) :: l' =>
             match SerializeJSONProperty x with
             | Thrown e => Thrown e
             | Returned o =>
                 match each l' with
                 | Thrown e => Thrown e
                 | Returned ss =>
                     Returned
                       (match o with
                        | Some s => (QuoteJSONString k +:+ ":" +:+ s) :: ss
                        | None => ss
                        end)
                 end
             end
         end) props = Returned ss).
    { induction IH as [|[k x] l Hx _ IHl]; [eauto|].
      apply andb_true_iff in Hfree as [Hfx Hfl]. simpl in Hx.
      destruct (Hx Hfx) as [o ->]. destruct (IHl Hfl) as [ss ->]. eauto. }
    destruct Heach as [ss ->]. eauto.
Qed.

Lemma JSON_stringify_bigint_free (v : value) :
  bigint_free v = true -> exists s, JSON_stringify v = Returned s.
Proof.
  intros H. destruct (SerializeJSONProperty_bigint_free v H) as [o Ho].
  unfold JSON_stringify. rewrite Ho. destruct o; eauto.
Qed.

(** X4. For a profile that contains no BigInt, [onceVerified] returns and
    declares exactly one outcome: [success(profile, info)] when [err] is
    falsy and [profile] truthy, [fail(challenge)] otherwise. *)
Theorem onceVerified_bigint_free
    (this : CasStrategy) (err profile info challenge : value) :
  bigint_free profile = true ->
  result (onceVerified this err profile info challenge) = Returned tt
  /\ erase_logs (trace (onceVerified this err profile info challenge))
     = [if negb (truthy err) && truthy profile then Success profile info
        else Fail challenge].
Proof.
  intros Hfree. destruct (JSON_stringify_bigint_free profile Hfree) as [s Hs].
  destruct (truthy err) eqn:He.
  - rewrite (onceVerified_err this err profile info challenge He).
    unfold result, trace, logged. simpl. destruct (errorLogger this); split; reflexivity.
  - destruct (truthy profile) eqn:Hp.
    + rewrite (onceVerified_profile this err profile info challenge s He Hp Hs).
      unfold result, trace, logged. simpl. destruct (debugLogger this); split; reflexivity.
    + rewrite (onceVerified_no_profile this err profile info challenge s He Hp Hs).
      unfold result, trace, logged. simpl. destruct (debugLogger this); split; reflexivity.
Qed.

Lemma onceVerified_bigint_free_witness :
  let profile := VObject [("user", VString "bob"); ("groups", VArray [VString "staff"; VNull])] in
  let info := VObject [("role", VString "admin")] in
  bigint_free profile = true
  /\ result (onceVerified Sample.strategy VNull profile info VUndefined) = Returned tt
  /\ erase_logs (trace (onceVerified Sample.strategy VNull profile info VUndefined))
     = [if negb (truthy VNull) && truthy profile then Success profile info
        else Fail VUndefined].
Proof.
  intros profile info.
  assert (H : bigint_free profile = true) by reflexivity.
  split; [exact H|].
  exact (onceVerified_bigint_free Sample.strategy VNull profile info VUndefined H).
Defined.

Lemma SerializeJSONProperty_bigint (v : value) :
  bigint_free v = false ->
  SerializeJSONProperty v = Thrown (VError "TypeError" "Do not know how to serialize a BigInt").
Proof.
  induction v as [| |b|n| |n|s|elems IH|props IH|name message] using value_nested_ind;
    intros Hfree; try discriminate Hfree.
  - reflexivity.
  - simpl in *.
    assert (Heach :
      (fix each (l : list value) : outcome (list string) :=
         match l with
         | [] => Returned []
         | x :: l' =>
             match SerializeJSONProperty x with
             | Thrown e => Thrown e
             | Returned o =>
                 match each l' with
                 | Thrown e => Thrown e
                 | Returned ss => Returned (default "null" o :: ss)
                 end
             end
         end) elems = Thrown (VError "TypeError" "Do not know how to serialize a BigInt")).
    { induction IH as [|x l Hx _ IHl]; [discriminate Hfree|].
      destruct (bigint_free x) eqn:Hfx.
      - destruct (SerializeJSONProperty_bigint_free x Hfx) as [o ->].
        simpl in Hfree. rewrite (IHl Hfree). reflexivity.
      - rewrite (Hx eq_refl). reflexivity. }
    rewrite Heach. reflexivity.
  - simpl in *.
    assert (Heach :
      (fix each (l : list (string * value)) : outcome (list string) :=
         match l with
         | [] => Returned []
         | (k, x) :: l' =>
             match SerializeJSONProperty x with
             | Thrown e => Thrown e
             | Returned o =>
                 match each l' with
                 | Thrown e => Thrown e
                 | Returned ss =>
                     Returned
                       (match o with
                        | Some s => (QuoteJSONString k +:+ ":" +:+ s) :: ss
                        | None => ss
                        end)
                 end
             end
         end) props = Thrown (VError "TypeError" "Do not know how to serialize a BigInt")).
    { induction IH as [|[k x] l Hx _ IHl]; [discriminate Hfree|]. simpl in Hx.
      destruct (bigint_free x) eqn:Hfx.
      - destruct (SerializeJSONProperty_bigint_free x Hfx) as [o ->].
        simpl in Hfree. rewrite (IHl Hfree). reflexivity.
      - rewrite (Hx eq_refl). reflexivity. }
    rewrite Heach. reflexivity.
Qed.

Lemma JSON_stringify_bigint (v : value) :
  bigint_free v = false ->
  JSON_stringify v = Thrown (VError "TypeError" "Do not know how to serialize a BigInt").
Proof.
  intros H. unfold JSON_stringify. rewrite (SerializeJSONProperty_bigint v H). reflexivity.
Qed.

(** X5. [onceVerified] throws exactly when [err] is falsy and the profile
    contains a BigInt, whatever the loggers; the exception is then the
    TypeError of [JSON.stringify]. *)
Theorem onceVerified_throws_iff
    (this : CasStrategy) (err profile info challenge exn : value) :
  result (onceVerified this err profile info challenge) = Thrown exn
  <-> truthy err = false /\ bigint_free profile = false
      /\ exn = VError "TypeError" "Do not know how to serialize a BigInt".
Proof.
  split.
  - intros H. assert (Hshape := onceVerified_thrown_shape this err profile info challenge).
    rewrite H in Hshape. destruct Hshape as (He & Hjson).
    split; [exact He|].
    destruct (bigint_free profile) eqn:Hfree.
    + destruct (JSON_stringify_bigint_free profile Hfree) as [s Hs]. congruence.
    + rewrite (JSON_stringify_bigint profile Hfree) in Hjson.
      split; [reflexivity | congruence].
  - intros (He & Hfree & ->).
    rewrite (onceVerified_stringify_throws this err profile info challenge _ He
               (JSON_stringify_bigint profile Hfree)).
    reflexivity.
Qed.

(** ** [validate], for every response *)

Lemma if_truthy_Some {A : Type} (to_value : A -> value) (branch : option A) (a : A) :
  if_truthy to_value branch = Some a -> branch = Some a /\ truthy (to_value a) = true.
Proof.
  unfold if_truthy. destruct branch as [b|]; [|discriminate].
  destruct (truthy (to_value b)) eqn:Hb; [|discriminate].
  intros H. injection H as ->. split; [reflexivity | exact Hb].
Qed.

Lemma if_truthy_failure_None (sr : CasServiceResponse) :
  if_truthy failure_value (authenticationfailure sr) = None -> no_truthy_failure sr.
Proof.
  unfold if_truthy. intros H failure Hf. rewrite Hf in H.
  destruct (truthy (failure_value failure)); [discriminate H | reflexivity].
Qed.

(** Case analysis on what [validate] reads. *)
Ltac validate_cases P this body :=
  unfold validate;
  destruct (truthy (parse_err (parseString P body))) eqn:Herr;
  [| destruct (parse_result (parseString P body)) as [r|] eqn:Hresult;
     [ destruct (serviceresponse r) as [sr|] eqn:Hroot; simpl;
       [ destruct (if_truthy failure_value (authenticationfailure sr))
           as [failure|] eqn:Hfailure;
         [| destruct (if_truthy success_object (authenticationsuccess sr))
              as [found|] eqn:Hsuccess;
            [ unfold logDebug, lift, verify;
              destruct (JSON_stringify (success_object found)) as [s|exn] eqn:Hjson;
              destruct (debugLogger this); cbn |] ] |] |] ];
  rewrite ?done_Error.

(** X6. Besides logging, [validate] does one thing: when it returns, its
    last call either hands a profile to the hook or is [fail(undefined)], and
    it made no other call outside the loggers; in particular it never calls
    [success] and never fails with a reason.  When it throws, it made no call
    outside the loggers. *)
Theorem validate_one_call (P : Platform) (this : CasStrategy) (body : string) :
  match result (validate P this body) with
  | Returned _ =>
      exists e, last (trace (validate P this body)) = Some e
                /\ erase_logs (trace (validate P this body)) = [e]
                /\ (e = Fail VUndefined \/ exists profile, e = Verify profile)
  | Thrown _ => erase_logs (trace (validate P this body)) = []
  end.
Proof.
  assert (Hdown : forall message,
    exists e, last (turned_down this message) = Some e
              /\ erase_logs (turned_down this message) = [e]
              /\ (e = Fail VUndefined \/ exists profile, e = Verify profile)).
  { intros message. exists (Fail VUndefined). unfold turned_down, logged.
    destruct (errorLogger this); repeat split; eauto. }
  validate_cases P this body;
    lazymatch goal with
    | |- context [turned_down] => exact (Hdown _)
    | _ => idtac
    end.
  - exists (Verify found). split; [reflexivity|]. split; [reflexivity|]. right. eauto.
  - exists (Verify found). split; [reflexivity|]. split; [reflexivity|]. right. eauto.
  - reflexivity.
  - reflexivity.
Qed.

(** X7. [validate] calls the hook with [profile] exactly when the parser
    reported no error, the root has no truthy failure branch (the branch is
    not there, or is an empty element), its success branch is [profile] and
    is truthy, and [JSON.stringify] of that branch (evaluated for the debug
    log) returns. *)
Theorem validate_invokes_hook_iff
    (P : Platform) (this : CasStrategy) (body : string) (profile : CasAuthenticationSuccess) :
  Verify profile ∈ trace (validate P this body)
  <-> exists sr,
        parsed_root (parseString P body) sr
        /\ no_truthy_failure sr
        /\ authenticationsuccess sr = Some profile
        /\ truthy (success_object profile) = true
        /\ exists s, JSON_stringify (success_object profile) = Returned s.
Proof.
  split.
  - intros H. revert H.
    assert (Hdown : forall message, Verify profile ∈ turned_down this message -> False)
      by (intros message; apply turned_down_no_hook).
    validate_cases P this body; unfold trace; simpl; intros H;
      try (exfalso; apply (Hdown _ H));
      in_explicit_list H.
    + injection H as Heq. subst found. exists sr.
      destruct (if_truthy_Some _ _ _ Hsuccess) as [Hs Ht].
      split; [split; [exact Herr | eauto] |].
      split; [exact (if_truthy_failure_None sr Hfailure)|]. eauto.
    + injection H as Heq. subst found. exists sr.
      destruct (if_truthy_Some _ _ _ Hsuccess) as [Hs Ht].
      split; [split; [exact Herr | eauto] |].
      split; [exact (if_truthy_failure_None sr Hfailure)|]. eauto.
  - intros (sr & Hroot & Hf & Hs & Ht & [s Hjson]).
    rewrite (validate_success_branch P this body sr profile s Hroot Hf Hs Ht Hjson).
    unfold trace. simpl. apply elem_of_app. right. apply list_elem_of_here.
Qed.

Lemma empty_failure_with_success_invokes_hook :
  let sr := {| authenticationsuccess := Some alice;
               authenticationfailure := Some empty_failure |} in
  let P := Sample.platform (Sample.ok "<cas:serviceResponse/>") (Sample.parsed sr) in
  validate P Sample.quiet "<cas:serviceResponse/>" = ([Verify alice], Returned tt).
Proof. vm_compute. reflexivity. Qed.

(** X8. A truthy failure branch (a text, or an object) without attributes,
    or whose attributes have no [code], is turned down with the error
    "Authentication failed undefined": the missing code is concatenated as it
    is.  An empty failure element is not such a branch: it is falsy, and the
    response is read as if it had no failure branch. *)
Theorem validate_failure_without_code
    (P : Platform) (this : CasStrategy) (body : string)
    (sr : CasServiceResponse) (failure : CasAuthenticationFailure) :
  parsed_root (parseString P body) sr ->
  authenticationfailure sr = Some failure ->
  truthy (failure_value failure) = true ->
  dollar failure = None \/ dollar failure = Some {| code := None |} ->
  validate P this body
  = (turned_down this "Authentication failed undefined", Returned tt).
Proof.
  intros Hroot Hf Ht Hcode.
  rewrite (validate_failure_branch P this body sr failure Hroot Hf Ht).
  unfold failure_code. destruct Hcode as [-> | ->]; reflexivity.
Qed.

Lemma validate_failure_without_code_witness :
  let failure := FailureText "Ticket ST-1 not recognized" in
  let sr := {| authenticationsuccess := None; authenticationfailure := Some failure |} in
  let P := Sample.platform (Sample.ok "<cas:serviceResponse/>") (Sample.parsed sr) in
  parsed_root (parseString P "<cas:serviceResponse/>") sr
  /\ authenticationfailure sr = Some failure
  /\ truthy (failure_value failure) = true
  /\ (dollar failure = None \/ dollar failure = Some {| code := None |})
  /\ validate P Sample.strategy "<cas:serviceResponse/>"
     = (turned_down Sample.strategy "Authentication failed undefined", Returned tt).
Proof.
  intros failure sr P.
  assert (Hroot : parsed_root (parseString P "<cas:serviceResponse/>") sr).
  { split; [reflexivity|]. eexists. split; reflexivity. }
  assert (Hcode : dollar failure = None \/ dollar failure = Some {| code := None |})
    by (left; reflexivity).
  split; [exact Hroot|]. split; [reflexivity|]. split; [reflexivity|]. split; [exact Hcode|].
  exact (validate_failure_without_code P Sample.strategy "<cas:serviceResponse/>" sr
           failure Hroot eq_refl eq_refl Hcode).
Defined.

Example validate_failure_without_code_sample :
  let sr := {| authenticationsuccess := None;
               authenticationfailure := Some failure_without_code |} in
  validate (Sample.platform (Sample.ok "<cas:serviceResponse/>") (Sample.parsed sr))
    Sample.strategy "<cas:serviceResponse/>"
  = ([LogError "CAS verified callback error"
        (VError "Error" "Authentication failed undefined");
      Fail VUndefined], Returned tt).
Proof. vm_compute. reflexivity. Qed.

Example validate_empty_failure_alone_sample :
  let sr := {| authenticationsuccess := None; authenticationfailure := Some empty_failure |} in
  validate (Sample.platform (Sample.ok "<cas:serviceResponse/>") (Sample.parsed sr))
    Sample.strategy "<cas:serviceResponse/>"
  = ([LogError "CAS verified callback error" (VError "Error" "Authentication failed");
      Fail VUndefined], Returned tt).
Proof. vm_compute. reflexivity. Qed.

(** X9. A root that has neither a failure branch nor a success branch is
    turned down with the error "Authentication failed", the same way as a
    document without the root: the one outcome is a failure with an undefined
    reason and the hook is not invoked. *)
Theorem validate_neither_branch_turned_down
    (P : Platform) (this : CasStrategy) (body : string) (sr : CasServiceResponse) :
  parsed_root (parseString P body) sr ->
  authenticationfailure sr = None ->
  authenticationsuccess sr = None ->
  validate P this body = (turned_down this "Authentication failed", Returned tt)
  /\ List.filter is_outcome (trace (validate P this body)) = [Fail VUndefined]
  /\ hook_not_invoked (trace (validate P this body)).
Proof.
  intros Hroot Hf Hs.
  rewrite (validate_neither_branch P this body sr Hroot Hf Hs).
  split; [reflexivity|].
  split; [apply turned_down_outcome | apply turned_down_no_hook].
Qed.

Lemma validate_neither_branch_turned_down_witness :
  let sr := {| authenticationsuccess := None; authenticationfailure := None |} in
  let P := Sample.platform (Sample.ok "<cas:serviceResponse/>") (Sample.parsed sr) in
  parsed_root (parseString P "<cas:serviceResponse/>") sr
  /\ authenticationfailure sr = None
  /\ authenticationsuccess sr = None
  /\ validate P Sample.strategy "<cas:serviceResponse/>"
     = (turned_down Sample.strategy "Authentication failed", Returned tt)
  /\ List.filter is_outcome (trace (validate P Sample.strategy "<cas:serviceResponse/>"))
     = [Fail VUndefined]
  /\ hook_not_invoked (trace (validate P Sample.strategy "<cas:serviceResponse/>")).
Proof.
  intros sr P.
  assert (Hroot : parsed_root (parseString P "<cas:serviceResponse/>") sr).
  { split; [reflexivity|]. eexists. split; reflexivity. }
  split; [exact Hroot|]. split; [reflexivity|]. split; [reflexivity|].
  exact (validate_neither_branch_turned_down P Sample.strategy "<cas:serviceResponse/>" sr
           Hroot eq_refl eq_refl).
Defined.

(** ** [authenticate], for every request *)

(** What [validate] leaves in a trace, for the proofs about its caller. *)
Lemma validate_shape (P : Platform) (this : CasStrategy) (body : string) :
  (exists logs e,
     validate P this body = (logs ++ [e], Returned tt)
     /\ erase_logs logs = []
     /\ (e = Fail VUndefined \/ exists profile, e = Verify profile))
  \/ (exists logs exn,
        validate P this body = (logs, Thrown exn) /\ erase_logs logs = []).
Proof.
  assert (Hdown : forall message,
    exists logs e,
      (turned_down this message, Returned tt) = (logs ++ [e], Returned tt)
      /\ erase_logs logs = []
      /\ (e = Fail VUndefined \/ exists profile, e = Verify profile)).
  { intros message. unfold turned_down.
    exists (logged (errorLogger this)
              [LogError "CAS verified callback error" (new_Error message)]), (Fail VUndefined).
    split; [reflexivity|]. split; [|left; reflexivity].
    unfold logged. destruct (errorLogger this); reflexivity. }
  validate_cases P this body;
    lazymatch goal with
    | |- context [turned_down] => left; exact (Hdown _)
    | _ => idtac
    end.
  - left. eexists [_; _], _. split; [reflexivity|]. split; [reflexivity|]. right. eauto.
  - left. eexists [], _. split; [reflexivity|]. split; [reflexivity|]. right. eauto.
  - right. eexists [_], _. split; reflexivity.
  - right. eexists [], _. split; reflexivity.
Qed.

(** Case analysis on what [authenticate] reads, up to the call of
    [validate]. *)
Ltac authenticate_cases_after prepare P this req :=
  unfold authenticate, logout, logout_callback, getReqService, construct_URL,
    await_axios_get, logDebug, logError, redirect, fail;
  prepare;
  destruct (truthy (query_param req "RelayState")) eqn:Hrs;
  [ destruct (req_logout req) as [logout_err|] eqn:Hlogout;
    [ destruct (truthy logout_err) eqn:Hlogout_err |];
    destruct (new_URL P (logoutRoute (config this)) (base (config this))) as [l|] eqn:Hl
  | destruct (new_URL P (originalUrl req) (serverUrl (config this))) as [u|] eqn:Hu;
    [ destruct (truthy (query_param req "ticket")) eqn:Hticket;
      [ destruct (new_URL P (validateRoute (config this)) (base (config this))) as [v|] eqn:Hv;
        [ cbn -[validate];
          destruct (axios_get P _) as [res|reason] eqn:Hget;
          [ cbn -[validate]; destruct (status res =? 200)%Z eqn:Hstatus |] |]
      | destruct (new_URL P (loginRoute (config this)) (base (config this))) as [l|] eqn:Hl ]
    |] ];
  destruct (errorLogger this) eqn:Helog, (debugLogger this) eqn:Hdlog;
  cbn -[validate].

Ltac authenticate_cases P this req := authenticate_cases_after idtac P this req.

(** A trace of logger calls only has no event of another kind. *)
Lemma filter_only_logs (p : event -> bool) (t : list event) :
  (forall e, p e = true -> is_log e = false) ->
  erase_logs t = [] -> List.filter p t = [].
Proof.
  intros Hp. unfold erase_logs. induction t as [|e t IH]; [reflexivity|].
  simpl. destruct (is_log e) eqn:He; simpl; [|discriminate].
  intros Ht. destruct (p e) eqn:Hpe; [|exact (IH Ht)].
  rewrite (Hp e Hpe) in He. discriminate He.
Qed.

Lemma terminal_not_log e : is_terminal e = true -> is_log e = false.
Proof. destruct e; (discriminate || reflexivity). Qed.

Lemma HttpGet_not_log e : is_HttpGet e = true -> is_log e = false.
Proof. destruct e; (discriminate || reflexivity). Qed.

(** X16. Every run of [authenticate] that returns ends with exactly one
    call among redirect, fail and the host's hook, made last; a run that
    throws has made none of them.  [authenticate] itself never calls
    [success]. *)
Theorem authenticate_one_terminal_call (P : Platform) (this : CasStrategy) (req : Request) :
  match result (authenticate P this req) with
  | Returned _ =>
      exists e, last (trace (authenticate P this req)) = Some e
                /\ List.filter is_terminal (trace (authenticate P this req)) = [e]
                /\ is_Success e = false
  | Thrown _ => List.filter is_terminal (trace (authenticate P this req)) = []
  end.
Proof.
  authenticate_cases P this req;
    try solve [ reflexivity | eexists; repeat split; reflexivity ].
  all: destruct (validate_shape P this (data res))
         as [(logs & e & -> & Hlogs & He) | (logs & exn & -> & Hlogs)];
       cbn; unfold trace; cbn;
       rewrite ?List.filter_app, ?(filter_only_logs is_terminal logs terminal_not_log Hlogs);
       [| reflexivity].
  all: exists e; rewrite ?app_comm_cons, last_snoc;
       split; [reflexivity|];
       destruct He as [-> | [profile ->]]; split; reflexivity.
Qed.

(** X18. [authenticate] sends at most one GET to the CAS server, and only
    for a request with a truthy ticket and no truthy RelayState. *)
Theorem authenticate_get_at_most_once (P : Platform) (this : CasStrategy) (req : Request) :
  List.filter is_HttpGet (trace (authenticate P this req)) = []
  \/ (truthy (query_param req "RelayState") = false
      /\ truthy (query_param req "ticket") = true
      /\ exists url, List.filter is_HttpGet (trace (authenticate P this req)) = [HttpGet url]).
Proof.
  authenticate_cases P this req;
    try solve [ left; reflexivity
              | right; split; [reflexivity|]; split; [reflexivity|]; eexists; reflexivity ].
  all: right; split; [reflexivity|]; split; [reflexivity|].
  all: destruct (validate_shape P this (data res))
         as [(logs & e & -> & Hlogs & He) | (logs & exn & -> & Hlogs)];
       cbn; unfold trace; cbn;
       rewrite ?List.filter_app, ?(filter_only_logs is_HttpGet logs HttpGet_not_log Hlogs);
       [| eexists; reflexivity].
  all: destruct He as [-> | [profile ->]]; eexists; reflexivity.
Qed.

(** X14. When the request URL does not resolve against the server URL and
    there is no truthy RelayState, [authenticate] throws the TypeError of the
    [URL] constructor before any other call: nothing is logged, redirected or
    declared. *)
Theorem authenticate_unresolved_request_URL (P : Platform) (this : CasStrategy) (req : Request) :
  truthy (query_param req "RelayState") = false ->
  new_URL P (originalUrl req) (serverUrl (config this)) = None ->
  authenticate P this req = ([], Thrown (VError "TypeError" "Invalid URL")).
Proof.
  intros Hrs Hu. unfold authenticate. rewrite Hrs.
  rewrite (getReqService_rejected P this req Hu). reflexivity.
Qed.

Lemma authenticate_unresolved_request_URL_witness :
  let P := Sample.platform Sample.no_response Sample.unparsed in
  let req := Sample.request "//" [] in
  truthy (query_param req "RelayState") = false
  /\ new_URL P (originalUrl req) (serverUrl (config Sample.strategy)) = None
  /\ authenticate P Sample.strategy req = ([], Thrown (VError "TypeError" "Invalid URL")).
Proof.
  intros P req.
  assert (Hrs : truthy (query_param req "RelayState") = false) by (vm_compute; reflexivity).
  assert (Hu : new_URL P (originalUrl req) (serverUrl (config Sample.strategy)) = None)
    by (vm_compute; reflexivity).
  split; [exact Hrs|]. split; [exact Hu|].
  exact (authenticate_unresolved_request_URL P Sample.strategy req Hrs Hu).
Defined.

(** X15. When the three CAS routes do not resolve against the base URL,
    every call of [authenticate] throws the TypeError of the [URL]
    constructor, without a redirect, an outcome, a call of the hook or a GET;
    a request with a truthy RelayState has still been logged out locally. *)
Theorem authenticate_unresolved_routes (P : Platform) (this : CasStrategy) (req : Request) :
  new_URL P (logoutRoute (config this)) (base (config this)) = None ->
  new_URL P (loginRoute (config this)) (base (config this)) = None ->
  new_URL P (validateRoute (config this)) (base (config this)) = None ->
  result (authenticate P this req) = Thrown (VError "TypeError" "Invalid URL")
  /\ List.filter is_terminal (trace (authenticate P this req)) = []
  /\ List.filter is_HttpGet (trace (authenticate P this req)) = []
  /\ (ReqLogout ∈ trace (authenticate P this req)
      <-> truthy (query_param req "RelayState") = true).
Proof.
  intros Hroute1 Hroute2 Hroute3.
  authenticate_cases P this req; try congruence;
    (split; [reflexivity|]); (split; [reflexivity|]); (split; [reflexivity|]);
    unfold trace; cbn; split; intros H; try discriminate H; try reflexivity;
    try (in_explicit_list H; fail);
    repeat first [ apply list_elem_of_here | apply list_elem_of_further ].
Qed.

Lemma authenticate_unresolved_routes_witness :
  let P := Sample.platform Sample.no_response Sample.unparsed in
  let req := Sample.request "/private?RelayState=abc" [("RelayState", "abc")] in
  new_URL P (logoutRoute (config misconfigured)) (base (config misconfigured)) = None
  /\ new_URL P (loginRoute (config misconfigured)) (base (config misconfigured)) = None
  /\ new_URL P (validateRoute (config misconfigured)) (base (config misconfigured)) = None
  /\ result (authenticate P misconfigured req) = Thrown (VError "TypeError" "Invalid URL")
  /\ List.filter is_terminal (trace (authenticate P misconfigured req)) = []
  /\ List.filter is_HttpGet (trace (authenticate P misconfigured req)) = []
  /\ (ReqLogout ∈ trace (authenticate P misconfigured req)
      <-> truthy (query_param req "RelayState") = true).
Proof.
  intros P req.
  assert (H1 : new_URL P (logoutRoute (config misconfigured)) (base (config misconfigured))
               = None) by (vm_compute; reflexivity).
  assert (H2 : new_URL P (loginRoute (config misconfigured)) (base (config misconfigured))
               = None) by (vm_compute; reflexivity).
  assert (H3 : new_URL P (validateRoute (config misconfigured)) (base (config misconfigured))
               = None) by (vm_compute; reflexivity).
  split; [exact H1|]. split; [exact H2|]. split; [exact H3|].
  exact (authenticate_unresolved_routes P misconfigured req H1 H2 H3).
Defined.

Example authenticate_unresolved_logout_sample :
  authenticate (Sample.platform Sample.no_response Sample.unparsed) misconfigured
    (Sample.request "/private?RelayState=abc" [("RelayState", "abc")])
  = ([LogDebug (VString "RelayState present, logging out"); ReqLogout],
     Thrown (VError "TypeError" "Invalid URL")).
Proof. vm_compute. reflexivity. Qed.

(** X10. A response whose status is not 200, for a request with a ticket
    and no truthy RelayState: the status text goes to the error logger, the
    attempt fails with an [Error] made from the status text, the hook is not
    called, and the response body is not parsed (the run is the same with any
    other parser). *)
Theorem authenticate_status_not_200
    (P : Platform) (this : CasStrategy) (req : Request) (u v : URL)
    (ticket : string) (res : AxiosResponse) :
  truthy (query_param req "RelayState") = false ->
  query req !! "ticket" = Some ticket -> ticket <> EmptyString ->
  new_URL P (originalUrl req) (serverUrl (config this)) = Some u ->
  new_URL P (validateRoute (config this)) (base (config this)) = Some v ->
  let service := URL_toString P (searchParams_delete "ticket" u) in
  let target :=
    URL_toString P (searchParams_set "service" service (searchParams_set "ticket" ticket v)) in
  axios_get P target = Resolved res ->
  status res <> 200%Z ->
  result (authenticate P this req) = Returned tt
  /\ erase_logs (trace (authenticate P this req))
     = [HttpGet target; Fail (new_Error (statusText res))]
  /\ (errorLogger this = true ->
      LogError "Failed to validate ticket" (VString (statusText res))
      ∈ trace (authenticate P this req))
  /\ forall parser, authenticate (with_parseString parser P) this req = authenticate P this req.
Proof.
  intros Hrs Ht Hne Hu Hv service target Hget Hstatus.
  assert (Hrun := authenticate_not_200 P this req u v ticket res Hrs Ht Hne Hu Hv Hget Hstatus).
  fold service target in Hrun.
  split; [rewrite Hrun; reflexivity|]. split; [|split].
  - rewrite Hrun. unfold trace, logged.
    destruct (debugLogger this), (errorLogger this); reflexivity.
  - intros Hlog. rewrite Hrun. unfold trace, logged. rewrite Hlog.
    destruct (debugLogger this); simpl;
      repeat first [ apply list_elem_of_here | apply list_elem_of_further ].
  - intros parser. rewrite Hrun.
    exact (authenticate_not_200 (with_parseString parser P) this req u v ticket res
             Hrs Ht Hne Hu Hv Hget Hstatus).
Qed.

Lemma authenticate_status_not_200_witness :
  let res := {| status := 500; statusText := "Internal Server Error"; data := "<oops/>" |} in
  let P := Sample.platform (Resolved res) Sample.unparsed in
  let req := Sample.request "/private?ticket=ST-1" [("ticket", "ST-1")] in
  let u := {| protocol := "https:"; username := EmptyString; password := EmptyString;
              host := "app.example.org"; pathname := "/private";
              searchParams := [("ticket", "ST-1")]; hash := EmptyString |} in
  let v := {| protocol := "https:"; username := EmptyString; password := EmptyString;
              host := "cas.example.org"; pathname := "/serviceValidate";
              searchParams := []; hash := EmptyString |} in
  truthy (query_param req "RelayState") = false
  /\ query req !! "ticket" = Some "ST-1"
  /\ "ST-1" <> EmptyString
  /\ new_URL P (originalUrl req) (serverUrl (config Sample.strategy)) = Some u
  /\ new_URL P (validateRoute (config Sample.strategy)) (base (config Sample.strategy)) = Some v
  /\ status res <> 200%Z
  /\ erase_logs (trace (authenticate P Sample.strategy req))
     = [HttpGet (URL_toString P
          (searchParams_set "service" (URL_toString P (searchParams_delete "ticket" u))
             (searchParams_set "ticket" "ST-1" v)));
        Fail (new_Error (statusText res))].
Proof.
  intros res P req u v.
  assert (Hrs : truthy (query_param req "RelayState") = false) by (vm_compute; reflexivity).
  assert (Ht : query req !! "ticket" = Some "ST-1") by (vm_compute; reflexivity).
  assert (Hne : "ST-1" <> EmptyString) by discriminate.
  assert (Hu : new_URL P (originalUrl req) (serverUrl (config Sample.strategy)) = Some u)
    by (vm_compute; reflexivity).
  assert (Hv : new_URL P (validateRoute (config Sample.strategy)) (base (config Sample.strategy))
               = Some v) by (vm_compute; reflexivity).
  assert (Hstatus : status res <> 200%Z) by discriminate.
  split; [exact Hrs|]. split; [exact Ht|]. split; [exact Hne|]. split; [exact Hu|].
  split; [exact Hv|]. split; [exact Hstatus|].
  exact (proj1 (proj2 (authenticate_status_not_200 P Sample.strategy req u v "ST-1" res
                         Hrs Ht Hne Hu Hv eq_refl Hstatus))).
Defined.

(** X11. A response of status 200, for a request with a ticket and no
    truthy RelayState: after its one GET, [authenticate] does what [validate]
    does on the response body, and ends as [validate] ends. *)
Theorem authenticate_status_200
    (P : Platform) (this : CasStrategy) (req : Request) (u v : URL)
    (ticket : string) (res : AxiosResponse) :
  truthy (query_param req "RelayState") = false ->
  query req !! "ticket" = Some ticket -> ticket <> EmptyString ->
  new_URL P (originalUrl req) (serverUrl (config this)) = Some u ->
  new_URL P (validateRoute (config this)) (base (config this)) = Some v ->
  let service := URL_toString P (searchParams_delete "ticket" u) in
  let target :=
    URL_toString P (searchParams_set "service" service (searchParams_set "ticket" ticket v)) in
  axios_get P target = Resolved res ->
  status res = 200%Z ->
  result (authenticate P this req) = result (validate P this (data res))
  /\ erase_logs (trace (authenticate P this req))
     = HttpGet target :: erase_logs (trace (validate P this (data res))).
Proof.
  intros Hrs Ht Hne Hu Hv service target Hget Hstatus.
  assert (Hrun := authenticate_200 P this req u v ticket res Hrs Ht Hne Hu Hv Hget Hstatus).
  fold service target in Hrun. rewrite Hrun.
  split; [reflexivity|].
  unfold trace at 1. simpl fst. unfold erase_logs, logged.
  destruct (debugLogger this); reflexivity.
Qed.

Lemma authenticate_status_200_witness :
  let sr := {| authenticationsuccess := Some alice; authenticationfailure := None |} in
  let res := {| status := 200; statusText := "OK"; data := "<cas:serviceResponse/>" |} in
  let P := Sample.platform (Resolved res) (Sample.parsed sr) in
  let req := Sample.request "/private?ticket=ST-1" [("ticket", "ST-1")] in
  let u := {| protocol := "https:"; username := EmptyString; password := EmptyString;
              host := "app.example.org"; pathname := "/private";
              searchParams := [("ticket", "ST-1")]; hash := EmptyString |} in
  let v := {| protocol := "https:"; username := EmptyString; password := EmptyString;
              host := "cas.example.org"; pathname := "/serviceValidate";
              searchParams := []; hash := EmptyString |} in
  truthy (query_param req "RelayState") = false
  /\ query req !! "ticket" = Some "ST-1"
  /\ "ST-1" <> EmptyString
  /\ new_URL P (originalUrl req) (serverUrl (config Sample.strategy)) = Some u
  /\ new_URL P (validateRoute (config Sample.strategy)) (base (config Sample.strategy)) = Some v
  /\ status res = 200%Z
  /\ result (authenticate P Sample.strategy req)
     = result (validate P Sample.strategy (data res)).
Proof.
  intros sr res P req u v.
  assert (Hrs : truthy (query_param req "RelayState") = false) by (vm_compute; reflexivity).
  assert (Ht : query req !! "ticket" = Some "ST-1") by (vm_compute; reflexivity).
  assert (Hne : "ST-1" <> EmptyString) by discriminate.
  assert (Hu : new_URL P (originalUrl req) (serverUrl (config Sample.strategy)) = Some u)
    by (vm_compute; reflexivity).
  assert (Hv : new_URL P (validateRoute (config Sample.strategy)) (base (config Sample.strategy))
               = Some v) by (vm_compute; reflexivity).
  split; [exact Hrs|]. split; [exact Ht|]. split; [exact Hne|]. split; [exact Hu|].
  split; [exact Hv|]. split; [reflexivity|].
  exact (proj1 (authenticate_status_200 P Sample.strategy req u v "ST-1" res
                  Hrs Ht Hne Hu Hv eq_refl eq_refl)).
Defined.

(** The one GET of a request with a ticket. *)
Lemma authenticate_sends_one_get
    (P : Platform) (this : CasStrategy) (req : Request) (u v : URL) (ticket : string) :
  truthy (query_param req "RelayState") = false ->
  query req !! "ticket" = Some ticket -> ticket <> EmptyString ->
  new_URL P (originalUrl req) (serverUrl (config this)) = Some u ->
  new_URL P (validateRoute (config this)) (base (config this)) = Some v ->
  List.filter is_HttpGet (trace (authenticate P this req))
  = [HttpGet (URL_toString P
       (searchParams_set "service" (URL_toString P (searchParams_delete "ticket" u))
          (searchParams_set "ticket" ticket v)))].
Proof.
  intros Hrs Ht Hne Hu Hv.
  set (service := URL_toString P (searchParams_delete "ticket" u)).
  set (target := searchParams_set "service" service (searchParams_set "ticket" ticket v)).
  destruct (axios_get P (URL_toString P target)) as [res|reason] eqn:Hget.
  - destruct (Z.eq_dec (status res) 200%Z) as [Hstatus|Hstatus].
    + rewrite (authenticate_200 P this req u v ticket res Hrs Ht Hne Hu Hv Hget Hstatus).
      fold service target.
      destruct (validate_shape P this (data res))
        as [(logs & e & -> & Hlogs & He) | (logs & exn & -> & Hlogs)];
        assert (Hnone := filter_only_logs is_HttpGet logs HttpGet_not_log Hlogs);
        unfold trace, logged; simpl fst.
      * destruct He as [-> | [profile ->]]; destruct (debugLogger this); simpl;
          rewrite List.filter_app, Hnone; reflexivity.
      * destruct (debugLogger this); simpl; rewrite Hnone; reflexivity.
    + rewrite (authenticate_not_200 P this req u v ticket res Hrs Ht Hne Hu Hv Hget Hstatus).
      fold service target. unfold trace, logged.
      destruct (debugLogger this), (errorLogger this); reflexivity.
  - rewrite (authenticate_rejected_get P this req u v ticket reason Hrs Ht Hne Hu Hv Hget).
    fold service target. unfold trace, logged. destruct (debugLogger this); reflexivity.
Qed.

(** X12. For a request with a ticket and no truthy RelayState, the GET goes
    to the validate route resolved against the base URL, with exactly one
    ticket parameter, the request's ticket, and exactly one service
    parameter, the resolved service URL, whatever parameters of these names
    the route had; the other parameters and the rest of the route are
    kept. *)
Theorem authenticate_validation_target
    (P : Platform) (this : CasStrategy) (req : Request) (u v : URL) (ticket : string) :
  truthy (query_param req "RelayState") = false ->
  query req !! "ticket" = Some ticket -> ticket <> EmptyString ->
  new_URL P (originalUrl req) (serverUrl (config this)) = Some u ->
  new_URL P (validateRoute (config this)) (base (config this)) = Some v ->
  let service := URL_toString P (searchParams_delete "ticket" u) in
  let target := searchParams_set "service" service (searchParams_set "ticket" ticket v) in
  List.filter is_HttpGet (trace (authenticate P this req)) = [HttpGet (URL_toString P target)]
  /\ URLSearchParams.getAll "ticket" (searchParams target) = [ticket]
  /\ URLSearchParams.getAll "service" (searchParams target) = [service]
  /\ (forall name, name <> "ticket" -> name <> "service" ->
      URLSearchParams.getAll name (searchParams target)
      = URLSearchParams.getAll name (searchParams v))
  /\ outside_query target = outside_query v.
Proof.
  intros Hrs Ht Hne Hu Hv service target.
  split; [|split; [|split; [|split]]].
  - exact (authenticate_sends_one_get P this req u v ticket Hrs Ht Hne Hu Hv).
  - unfold target, searchParams_set, with_searchParams. simpl.
    rewrite URLSearchParamsFacts.getAll_set_ne by discriminate.
    apply URLSearchParamsFacts.getAll_set_eq.
  - apply URLSearchParamsFacts.getAll_set_eq.
  - intros name Hn1 Hn2. unfold target, searchParams_set, with_searchParams. simpl.
    rewrite !URLSearchParamsFacts.getAll_set_ne by assumption. reflexivity.
  - reflexivity.
Qed.

Lemma authenticate_validation_target_witness :
  let P := Sample.platform (Sample.ok "<cas:serviceResponse/>") Sample.unparsed in
  let this := {| config := {| base := "https://cas.example.org";
                              loginRoute := "/login";
                              validateRoute := "/p3/serviceValidate?format=XML&ticket=old";
                              logoutRoute := "/logout";
                              serverUrl := "https://app.example.org" |};
                 errorLogger := false; debugLogger := false |} in
  let req := Sample.request "/private?a=1&ticket=ST-1" [("a", "1"); ("ticket", "ST-1")] in
  let u := {| protocol := "https:"; username := EmptyString; password := EmptyString;
              host := "app.example.org"; pathname := "/private";
              searchParams := [("a", "1"); ("ticket", "ST-1")]; hash := EmptyString |} in
  let v := {| protocol := "https:"; username := EmptyString; password := EmptyString;
              host := "cas.example.org"; pathname := "/p3/serviceValidate";
              searchParams := [("format", "XML"); ("ticket", "old")]; hash := EmptyString |} in
  truthy (query_param req "RelayState") = false
  /\ query req !! "ticket" = Some "ST-1"
  /\ "ST-1" <> EmptyString
  /\ new_URL P (originalUrl req) (serverUrl (config this)) = Some u
  /\ new_URL P (validateRoute (config this)) (base (config this)) = Some v
  /\ List.filter is_HttpGet (trace (authenticate P this req))
     = [HttpGet (URL_toString P
          (searchParams_set "service" (URL_toString P (searchParams_delete "ticket" u))
             (searchParams_set "ticket" "ST-1" v)))].
Proof.
  intros P this req u v.
  assert (Hrs : truthy (query_param req "RelayState") = false) by (vm_compute; reflexivity).
  assert (Ht : query req !! "ticket" = Some "ST-1") by (vm_compute; reflexivity).
  assert (Hne : "ST-1" <> EmptyString) by discriminate.
  assert (Hu : new_URL P (originalUrl req) (serverUrl (config this)) = Some u)
    by (vm_compute; reflexivity).
  assert (Hv : new_URL P (validateRoute (config this)) (base (config this)) = Some v)
    by (vm_compute; reflexivity).
  split; [exact Hrs|]. split; [exact Ht|]. split; [exact Hne|]. split; [exact Hu|].
  split; [exact Hv|].
  exact (proj1 (authenticate_validation_target P this req u v "ST-1" Hrs Ht Hne Hu Hv)).
Defined.

Example authenticate_validation_target_sample :
  List.filter is_HttpGet
    (trace (authenticate (Sample.platform (Sample.ok "<cas:serviceResponse/>") Sample.unparsed)
              {| config := {| base := "https://cas.example.org";
                              loginRoute := "/login";
                              validateRoute := "/p3/serviceValidate?format=XML&ticket=old";
                              logoutRoute := "/logout";
                              serverUrl := "https://app.example.org" |};
                 errorLogger := false; debugLogger := false |}
              (Sample.request "/private?a=1&ticket=ST-1" [("a", "1"); ("ticket", "ST-1")])))
  = [HttpGet "https://cas.example.org/p3/serviceValidate?format=XML&ticket=ST-1&service=https%3A%2F%2Fapp.example.org%2Fprivate%3Fa%3D1"].
Proof. vm_compute. reflexivity. Qed.

(** X13. The service URL is the same in the login redirect and in the
    validation request: when the URL of the second request is the URL of the
    first with a ticket pair inserted in its query, the service parameter of
    the GET sent for the second is the service parameter of the redirect
    issued for the first. *)
Theorem service_stable_from_login_to_validation
    (P : Platform) (this : CasStrategy) (first second : Request)
    (u1 u2 l v : URL) (ticket inserted : string) (before after : list (string * string)) :
  query first !! "RelayState" = None ->
  query first !! "ticket" = None ->
  truthy (query_param second "RelayState") = false ->
  query second !! "ticket" = Some ticket -> ticket <> EmptyString ->
  new_URL P (originalUrl first) (serverUrl (config this)) = Some u1 ->
  new_URL P (originalUrl second) (serverUrl (config this)) = Some u2 ->
  outside_query u2 = outside_query u1 ->
  searchParams u1 = before ++ after ->
  searchParams u2 = before ++ ("ticket", inserted) :: after ->
  new_URL P (loginRoute (config this)) (base (config this)) = Some l ->
  new_URL P (validateRoute (config this)) (base (config this)) = Some v ->
  exists service,
    List.filter is_Redirect (trace (authenticate P this first))
    = [Redirect (URL_toString P (searchParams_set "service" service l))]
    /\ List.filter is_HttpGet (trace (authenticate P this second))
       = [HttpGet (URL_toString P
            (searchParams_set "service" service (searchParams_set "ticket" ticket v)))].
Proof.
  intros Hrs1 Ht1 Hrs2 Ht2 Hne Hu1 Hu2 Hout Hq1 Hq2 Hl Hv.
  exists (URL_toString P (searchParams_delete "ticket" u1)). split.
  - assert (Hrun := authenticate_login P this first u1 l).
    unfold query_param in Hrun. rewrite Hrs1, Ht1 in Hrun.
    rewrite (Hrun eq_refl eq_refl Hu1 Hl). unfold trace, logged.
    destruct (debugLogger this); reflexivity.
  - assert (Hsame : searchParams_delete "ticket" u2 = searchParams_delete "ticket" u1).
    { destruct u1, u2. unfold outside_query in Hout. simpl in *.
      injection Hout as -> -> -> -> -> ->. subst.
      unfold searchParams_delete, with_searchParams, URLSearchParams.delete. simpl.
      rewrite !List.filter_app. simpl. reflexivity. }
    rewrite (authenticate_sends_one_get P this second u2 v ticket Hrs2 Ht2 Hne Hu2 Hv).
    rewrite Hsame. reflexivity.
Qed.

Lemma service_stable_from_login_to_validation_witness :
  let P := Sample.platform Sample.no_response Sample.unparsed in
  let first := Sample.request "/private?a=1&b=2" [("a", "1"); ("b", "2")] in
  let second := Sample.request "/private?a=1&ticket=ST-1&b=2"
                  [("a", "1"); ("ticket", "ST-1"); ("b", "2")] in
  let url := fun h p q =>
    {| protocol := "https:"; username := EmptyString; password := EmptyString;
       host := h; pathname := p; searchParams := q; hash := EmptyString |} in
  let u1 := url "app.example.org" "/private" [("a", "1"); ("b", "2")] in
  let u2 := url "app.example.org" "/private" [("a", "1"); ("ticket", "ST-1"); ("b", "2")] in
  let l := url "cas.example.org" "/login" [] in
  let v := url "cas.example.org" "/serviceValidate" [] in
  query first !! "RelayState" = None
  /\ query first !! "ticket" = None
  /\ truthy (query_param second "RelayState") = false
  /\ query second !! "ticket" = Some "ST-1"
  /\ "ST-1" <> EmptyString
  /\ new_URL P (originalUrl first) (serverUrl (config Sample.strategy)) = Some u1
  /\ new_URL P (originalUrl second) (serverUrl (config Sample.strategy)) = Some u2
  /\ outside_query u2 = outside_query u1
  /\ searchParams u1 = [("a", "1")] ++ [("b", "2")]
  /\ searchParams u2 = [("a", "1")] ++ ("ticket", "ST-1") :: [("b", "2")]
  /\ new_URL P (loginRoute (config Sample.strategy)) (base (config Sample.strategy)) = Some l
  /\ new_URL P (validateRoute (config Sample.strategy)) (base (config Sample.strategy)) = Some v
  /\ exists service,
       List.filter is_Redirect (trace (authenticate P Sample.strategy first))
       = [Redirect (URL_toString P (searchParams_set "service" service l))]
       /\ List.filter is_HttpGet (trace (authenticate P Sample.strategy second))
          = [HttpGet (URL_toString P
               (searchParams_set "service" service (searchParams_set "ticket" "ST-1" v)))].
Proof.
  intros P first second url u1 u2 l v.
  assert (H1 : query first !! "RelayState" = None) by (vm_compute; reflexivity).
  assert (H2 : query first !! "ticket" = None) by (vm_compute; reflexivity).
  assert (H3 : truthy (query_param second "RelayState") = false) by (vm_compute; reflexivity).
  assert (H4 : query second !! "ticket" = Some "ST-1") by (vm_compute; reflexivity).
  assert (H5 : "ST-1" <> EmptyString) by discriminate.
  assert (H6 : new_URL P (originalUrl first) (serverUrl (config Sample.strategy)) = Some u1)
    by (vm_compute; reflexivity).
  assert (H7 : new_URL P (originalUrl second) (serverUrl (config Sample.strategy)) = Some u2)
    by (vm_compute; reflexivity).
  assert (H8 : outside_query u2 = outside_query u1) by reflexivity.
  assert (H9 : searchParams u1 = [("a", "1")] ++ [("b", "2")]) by reflexivity.
  assert (H10 : searchParams u2 = [("a", "1")] ++ ("ticket", "ST-1") :: [("b", "2")])
    by reflexivity.
  assert (H11 : new_URL P (loginRoute (config Sample.strategy)) (base (config Sample.strategy))
                = Some l) by (vm_compute; reflexivity).
  assert (H12 : new_URL P (validateRoute (config Sample.strategy))
                  (base (config Sample.strategy)) = Some v) by (vm_compute; reflexivity).
  repeat (split; [assumption|]).
  exact (service_stable_from_login_to_validation P Sample.strategy first second u1 u2 l v
           "ST-1" "ST-1" [("a", "1")] [("b", "2")] H1 H2 H3 H4 H5 H6 H7 H8 H9 H10 H11 H12).
Defined.

(** ** The loggers *)

Lemma onceVerified_silenced (this : CasStrategy) (err profile info challenge : value) :
  result (onceVerified this err profile info challenge)
  = result (onceVerified (silenced this) err profile info challenge)
  /\ erase_logs (trace (onceVerified this err profile info challenge))
     = trace (onceVerified (silenced this) err profile info challenge).
Proof.
  onceVerified_cases this err profile; split; reflexivity.
Qed.

Lemma validate_silenced (P : Platform) (this : CasStrategy) (body : string) :
  result (validate P this body) = result (validate P (silenced this) body)
  /\ erase_logs (trace (validate P this body)) = trace (validate P (silenced this) body).
Proof.
  assert (Hdown : forall message,
    erase_logs (turned_down this message) = turned_down (silenced this) message).
  { intros message. unfold turned_down, logged. destruct (errorLogger this); reflexivity. }
  validate_cases P this body; unfold trace, result; simpl; rewrite ?Hdown;
    split; reflexivity.
Qed.

(** X17. The loggers do not change what the strategy does: with or without
    them, [authenticate] and [onceVerified] end the same way, and their
    traces without the logger calls are the traces of the same strategy built
    without loggers, which never logs. *)
Theorem logging_does_not_interfere (P : Platform) (this : CasStrategy) :
  (forall req,
     result (authenticate P this req) = result (authenticate P (silenced this) req)
     /\ erase_logs (trace (authenticate P this req))
        = trace (authenticate P (silenced this) req))
  /\ (forall err profile info challenge,
        result (onceVerified this err profile info challenge)
        = result (onceVerified (silenced this) err profile info challenge)
        /\ erase_logs (trace (onceVerified this err profile info challenge))
           = trace (onceVerified (silenced this) err profile info challenge)).
Proof.
  split; [|apply onceVerified_silenced].
  intros req.
  authenticate_cases_after
    ltac:(change (config (silenced this)) with (config this);
          change (errorLogger (silenced this)) with false;
          change (debugLogger (silenced this)) with false)
    P this req;
    try solve [ split; reflexivity ].
  all: destruct (validate_silenced P this (data res)) as [Hresult Htrace];
       destruct (validate P this (data res)) as [t1 r1];
       destruct (validate P (silenced this) (data res)) as [t2 r2];
       unfold trace, result in *; simpl in *; subst; split; reflexivity.
Qed.

(** ** Empty parameters *)

Lemma query_param_without_eq name req :
  query_param (without_param name req) name = VUndefined.
Proof. unfold query_param, without_param. simpl. rewrite lookup_delete_eq. reflexivity. Qed.

Lemma query_param_without_ne name name' req :
  name <> name' ->
  query_param (without_param name req) name' = query_param req name'.
Proof.
  intros Hne. unfold query_param, without_param. simpl.
  rewrite lookup_delete_ne by exact Hne. reflexivity.
Qed.

(** X19. An empty ticket and an empty RelayState count as absent: when
    [req.query] has the parameter with the empty string as its value,
    [authenticate] runs as on the same request without that parameter in
    [req.query]. *)
Theorem authenticate_empty_parameter
    (P : Platform) (this : CasStrategy) (req : Request) (name : string) :
  name = "ticket" \/ name = "RelayState" ->
  query req !! name = Some EmptyString ->
  authenticate P this (without_param name req) = authenticate P this req.
Proof.
  intros Hname Hempty.
  assert (Hq : query_param req name = VString EmptyString)
    by (unfold query_param; rewrite Hempty; reflexivity).
  unfold authenticate, logout, getReqService.
  change (originalUrl (without_param name req)) with (originalUrl req).
  change (req_logout (without_param name req)) with (req_logout req).
  destruct Hname as [-> | ->].
  - rewrite (query_param_without_ne "ticket" "RelayState" req) by discriminate.
    rewrite query_param_without_eq, Hq. reflexivity.
  - rewrite (query_param_without_ne "RelayState" "ticket" req) by discriminate.
    rewrite query_param_without_eq, Hq. reflexivity.
Qed.

Lemma authenticate_empty_parameter_witness :
  let P := Sample.platform Sample.no_response Sample.unparsed in
  let req := Sample.request "/private?ticket=" [("ticket", EmptyString)] in
  ("ticket" = "ticket" \/ "ticket" = "RelayState")
  /\ query req !! "ticket" = Some EmptyString
  /\ authenticate P Sample.strategy (without_param "ticket" req)
     = authenticate P Sample.strategy req.
Proof.
  intros P req.
  assert (Hname : "ticket" = "ticket" \/ "ticket" = "RelayState") by (left; reflexivity).
  assert (Hempty : query req !! "ticket" = Some EmptyString) by (vm_compute; reflexivity).
  split; [exact Hname|]. split; [exact Hempty|].
  exact (authenticate_empty_parameter P Sample.strategy req "ticket" Hname Hempty).
Defined.

Example authenticate_empty_ticket_sample :
  authenticate (Sample.platform Sample.no_response Sample.unparsed) Sample.quiet
    (Sample.request "/private?ticket=" [("ticket", EmptyString)])
  = ([Redirect "https://cas.example.org/login?service=https%3A%2F%2Fapp.example.org%2Fprivate"],
     Returned tt).
Proof. vm_compute. reflexivity. Qed.

(** ** Responses that are not a clean success *)

(** [validate] turns the response down, unless the root has a truthy success
    branch and no truthy failure branch. *)
Lemma validate_turned_down_or_success (P : Platform) (this : CasStrategy) (body : string) :
  (exists message, validate P this body = (turned_down this message, Returned tt))
  \/ (exists sr profile,
        parsed_root (parseString P body) sr
        /\ no_truthy_failure sr
        /\ authenticationsuccess sr = Some profile
        /\ truthy (success_object profile) = true).
Proof.
  validate_cases P this body;
    first [ left; eexists; reflexivity
          | right; eexists _, _;
            split; [split; [exact Herr | eauto] |];
            split; [exact (if_truthy_failure_None _ Hfailure)|];
            exact (if_truthy_Some _ _ _ Hsuccess) ].
Qed.

(** X20. A response of status 200 that is anything but a truthy success
    branch without a truthy failure branch (a body that does not parse, a
    document without the root, a truthy failure branch, no branch that is
    truthy) ends the attempt the same way: after the one GET, [fail] is
    called with an undefined reason, the hook is not called, and
    [authenticate] returns. *)
Theorem authenticate_response_turned_down
    (P : Platform) (this : CasStrategy) (req : Request) (u v : URL)
    (ticket : string) (res : AxiosResponse) :
  truthy (query_param req "RelayState") = false ->
  query req !! "ticket" = Some ticket -> ticket <> EmptyString ->
  new_URL P (originalUrl req) (serverUrl (config this)) = Some u ->
  new_URL P (validateRoute (config this)) (base (config this)) = Some v ->
  let service := URL_toString P (searchParams_delete "ticket" u) in
  let target :=
    URL_toString P (searchParams_set "service" service (searchParams_set "ticket" ticket v)) in
  axios_get P target = Resolved res ->
  status res = 200%Z ->
  (forall sr profile,
     parsed_root (parseString P (data res)) sr ->
     no_truthy_failure sr ->
     authenticationsuccess sr = Some profile ->
     truthy (success_object profile) = false) ->
  result (authenticate P this req) = Returned tt
  /\ erase_logs (trace (authenticate P this req)) = [HttpGet target; Fail VUndefined].
Proof.
  intros Hrs Ht Hne Hu Hv service target Hget Hstatus Hnot.
  assert (Hrun := authenticate_200 P this req u v ticket res Hrs Ht Hne Hu Hv Hget Hstatus).
  fold service target in Hrun. rewrite Hrun.
  destruct (validate_turned_down_or_success P this (data res))
    as [[message ->] | (sr & profile & Hroot & Hf & Hs & Htruthy)].
  - split; [reflexivity|].
    unfold trace, turned_down, logged. simpl fst.
    destruct (debugLogger this), (errorLogger this); reflexivity.
  - exfalso. rewrite (Hnot sr profile Hroot Hf Hs) in Htruthy. discriminate Htruthy.
Qed.

Lemma authenticate_response_turned_down_witness :
  let res := {| status := 200; statusText := "OK"; data := "not xml" |} in
  let P := Sample.platform (Resolved res) Sample.parse_error in
  let req := Sample.request "/private?ticket=ST-1" [("ticket", "ST-1")] in
  let u := {| protocol := "https:"; username := EmptyString; password := EmptyString;
              host := "app.example.org"; pathname := "/private";
              searchParams := [("ticket", "ST-1")]; hash := EmptyString |} in
  let v := {| protocol := "https:"; username := EmptyString; password := EmptyString;
              host := "cas.example.org"; pathname := "/serviceValidate";
              searchParams := []; hash := EmptyString |} in
  truthy (query_param req "RelayState") = false
  /\ query req !! "ticket" = Some "ST-1"
  /\ "ST-1" <> EmptyString
  /\ new_URL P (originalUrl req) (serverUrl (config Sample.strategy)) = Some u
  /\ new_URL P (validateRoute (config Sample.strategy)) (base (config Sample.strategy)) = Some v
  /\ status res = 200%Z
  /\ (forall sr profile,
        parsed_root (parseString P (data res)) sr ->
        no_truthy_failure sr ->
        authenticationsuccess sr = Some profile ->
        truthy (success_object profile) = false)
  /\ result (authenticate P Sample.strategy req) = Returned tt
  /\ erase_logs (trace (authenticate P Sample.strategy req))
     = [HttpGet (URL_toString P
          (searchParams_set "service" (URL_toString P (searchParams_delete "ticket" u))
             (searchParams_set "ticket" "ST-1" v)));
        Fail VUndefined].
Proof.
  intros res P req u v.
  assert (Hrs : truthy (query_param req "RelayState") = false) by (vm_compute; reflexivity).
  assert (Ht : query req !! "ticket" = Some "ST-1") by (vm_compute; reflexivity).
  assert (Hne : "ST-1" <> EmptyString) by discriminate.
  assert (Hu : new_URL P (originalUrl req) (serverUrl (config Sample.strategy)) = Some u)
    by (vm_compute; reflexivity).
  assert (Hv : new_URL P (validateRoute (config Sample.strategy)) (base (config Sample.strategy))
               = Some v) by (vm_compute; reflexivity).
  assert (Hnot : forall sr profile,
            parsed_root (parseString P (data res)) sr ->
            no_truthy_failure sr ->
            authenticationsuccess sr = Some profile ->
            truthy (success_object profile) = false).
  { intros sr profile [Herr _]. discriminate Herr. }
  split; [exact Hrs|]. split; [exact Ht|]. split; [exact Hne|]. split; [exact Hu|].
  split; [exact Hv|]. split; [reflexivity|]. split; [exact Hnot|].
  exact (authenticate_response_turned_down P Sample.strategy req u v "ST-1" res
           Hrs Ht Hne Hu Hv eq_refl eq_refl Hnot).
Defined.


(** ** Empty elements *)

(** X21. An empty failure element counts as absent: [validate] reads a root
    whose failure branch is the empty string exactly as the same root without
    a failure branch, so that a success branch beside it goes to the hook
    and, without one, the error is "Authentication failed". *)
Theorem validate_empty_failure_is_absent
    (P P' : Platform) (this : CasStrategy) (body body' : string) (sr : CasServiceResponse) :
  parsed_root (parseString P body) sr ->
  authenticationfailure sr = Some (FailureText EmptyString) ->
  parsed_root (parseString P' body')
    {| authenticationsuccess := authenticationsuccess sr; authenticationfailure := None |} ->
  validate P this body = validate P' this body'.
Proof.
  intros [He (r & Hr & Hroot)] Hf [He' (r' & Hr' & Hroot')].
  unfold validate. rewrite He, Hr, Hroot, He', Hr', Hroot'. simpl.
  rewrite Hf. reflexivity.
Qed.

Lemma validate_empty_failure_is_absent_witness :
  let sr := {| authenticationsuccess := Some alice;
               authenticationfailure := Some (FailureText EmptyString) |} in
  let sr' := {| authenticationsuccess := Some alice; authenticationfailure := None |} in
  let P := Sample.platform (Sample.ok "<a/>") (Sample.parsed sr) in
  let P' := Sample.platform (Sample.ok "<b/>") (Sample.parsed sr') in
  parsed_root (parseString P "<a/>") sr
  /\ authenticationfailure sr = Some (FailureText EmptyString)
  /\ parsed_root (parseString P' "<b/>")
       {| authenticationsuccess := authenticationsuccess sr; authenticationfailure := None |}
  /\ validate P Sample.strategy "<a/>" = validate P' Sample.strategy "<b/>".
Proof.
  intros sr sr' P P'.
  assert (Hroot : parsed_root (parseString P "<a/>") sr).
  { split; [reflexivity|]. eexists. split; reflexivity. }
  assert (Hroot' : parsed_root (parseString P' "<b/>")
            {| authenticationsuccess := authenticationsuccess sr;
               authenticationfailure := None |}).
  { split; [reflexivity|]. eexists. split; reflexivity. }
  split; [exact Hroot|]. split; [reflexivity|]. split; [exact Hroot'|].
  exact (validate_empty_failure_is_absent P P' Sample.strategy "<a/>" "<b/>" sr
           Hroot eq_refl Hroot').
Defined.
